(** * GNSS viewer configuration: constants catalogue and settings assembly

    A shallow embedding of [config/constants.py] and [config/settings.py].

    Modelling conventions.
    - A Python [str] is a Rocq [string]; the model covers ASCII text, on
      which [str.lower], [str.upper], [int] and [float] are defined below
      exactly as CPython defines them.  Characters outside ASCII are left
      alone by the case mappings and rejected by the numeric parsers.
    - [os.environ] is a finite map from names to values ([gmap string string]).
    - A Python [dict] is a [gmap]; a [list] is a [list].
    - A Python [float] is kept as the exact rational its literal denotes
      (rounding to binary64 is not modelled), or an infinity, or NaN.
    - Code that can raise returns a [result]: [Ok v] or [Raise e].
    - [limit] is the interpreter's bound on the digits of an integer
      literal ([sys.get_int_max_str_digits()]), which [int] consults. *)

From Stdlib Require Import ZArith QArith String Ascii List Bool Lia.
From stdpp Require Import base option gmap strings list fin_maps.

Local Open Scope string_scope.
Local Open Scope Z_scope.

(* ===================================================================== *)
(** ** Python values and exceptions                                       *)
(* ===================================================================== *)

(** The runtime class of a value, as far as the settings module needs it. *)
Inductive PyClass :=
  | Cstr | Cint | Cfloat | Cbool | Clist | Cdict | CNoneType.

(** The exceptions the two modules can raise. *)
Inductive PyExn :=
  | ValueError_int (literal : string)
      (* invalid literal for int() with base 10 *)
  | ValueError_int_digits (digits : nat)
      (* exceeds the limit for integer string conversion *)
  | ValueError_float (literal : string)
      (* could not convert string to float *)
  | ValueError_mutable_default (cls : PyClass) (field : string)
      (* mutable default <class> for field <name> is not allowed *)
  | AttributeError (obj attr : string)
  | LevelError (name : string)
      (* Logger.setLevel refusing a value that is no level *)
  | OSError (path : string).

Inductive result (A : Type) :=
  | Ok (a : A)
  | Raise (e : PyExn).
Arguments Ok {A} a.
Arguments Raise {A} e.

#[global] Instance result_ret : MRet result := fun A a => Ok a.
#[global] Instance result_bind : MBind result := fun A B f m =>
  match m with
  | Ok a => f a
  | Raise e => Raise e
  end.

Definition raised {A} (r : result A) : option PyExn :=
  match r with
  | Ok _ => None
  | Raise e => Some e
  end.

Definition returned {A} (r : result A) : option A :=
  match r with
  | Ok a => Some a
  | Raise _ => None
  end.

(** [float]: the exact value of the literal, an infinity, or NaN. *)
Inductive PyFloat :=
  | FFinite (q : Q)
  | FInf (negative : bool)
  | FNaN.

(* ===================================================================== *)
(** ** String primitives                                                  *)
(* ===================================================================== *)

Definition code (c : ascii) : N := N_of_ascii c.

Definition is_upper_letter (c : ascii) : bool :=
  ((65 <=? code c) && (code c <=? 90))%N.
Definition is_lower_letter (c : ascii) : bool :=
  ((97 <=? code c) && (code c <=? 122))%N.
Definition is_digit (c : ascii) : bool :=
  ((48 <=? code c) && (code c <=? 57))%N.

(** Py_ISSPACE: space, \t, \n, \v, \f, \r. *)
Definition is_space (c : ascii) : bool :=
  ((code c =? 32) || ((9 <=? code c) && (code c <=? 13)))%N.

Definition lower_char (c : ascii) : ascii :=
  if is_upper_letter c then ascii_of_N (code c + 32) else c.
Definition upper_char (c : ascii) : ascii :=
  if is_lower_letter c then ascii_of_N (code c - 32) else c.

(** [str.lower] and [str.upper]. *)
Fixpoint lower (s : string) : string :=
  match s with
  | EmptyString => EmptyString
  | String c rest => String (lower_char c) (lower rest)
  end.

Fixpoint upper (s : string) : string :=
  match s with
  | EmptyString => EmptyString
  | String c rest => String (upper_char c) (upper rest)
  end.

(** [s.split(sep)] for a one-character separator: every occurrence cuts,
    nothing is trimmed, and empty pieces are kept. *)
Fixpoint split (sep : ascii) (s : string) : list string :=
  match s with
  | EmptyString => [EmptyString]
  | String c rest =>
      if Ascii.eqb c sep then EmptyString :: split sep rest
      else match split sep rest with
           | piece :: more => String c piece :: more
           | [] => [String c EmptyString]
           end
  end.

(** [os.getenv(key, default)]. *)
Definition getenv (env : gmap string string) (key default : string) : string :=
  match env !! key with
  | Some v => v
  | None => default
  end.

(* ===================================================================== *)
(** ** int(str)                                                           *)
(* ===================================================================== *)

Definition digit_value (c : ascii) : Z := Z.of_N (code c) - 48.

Fixpoint drop_spaces (cs : list ascii) : list ascii :=
  match cs with
  | c :: rest => if is_space c then drop_spaces rest else cs
  | [] => []
  end.

(** An optional sign: [true] when negative. *)
Definition take_sign (cs : list ascii) : bool * list ascii :=
  match cs with
  | "+"%char :: rest => (false, rest)
  | "-"%char :: rest => (true, rest)
  | _ => (false, cs)
  end.

(** The digit scan of [PyLong_FromString]: digits and single underscores.
    [prev_us] tells whether the previous character was an underscore.
    Returns the value read, the number of digits and the rest; nothing
    when an underscore is doubled or is the last character scanned. *)
Fixpoint scan_digits (cs : list ascii) (acc : Z) (digits : nat) (prev_us : bool)
  : option (Z * nat * list ascii) :=
  match cs with
  | c :: rest =>
      if Ascii.eqb c "_" then
        if prev_us then None else scan_digits rest acc digits true
      else if is_digit c then
        scan_digits rest (10 * acc + digit_value c) (S digits) false
      else if prev_us then None else Some (acc, digits, cs)
  | [] => if prev_us then None else Some (acc, digits, [])
  end.

Section IntConversion.

(** [sys.get_int_max_str_digits()]; 0 switches the limit off, as it is in
    interpreters that predate it. *)
Variable int_max_str_digits : nat.

(** _PY_LONG_MAX_STR_DIGITS_THRESHOLD: shorter literals are never refused. *)
Definition digits_threshold : nat := 640.

Definition over_digit_limit (digits : nat) : bool :=
  (digits_threshold <? digits)%nat
  && (0 <? int_max_str_digits)%nat
  && (int_max_str_digits <? digits)%nat.

(** [int(s)] in base 10. *)
Definition py_int (s : string) : result Z :=
  let invalid := Raise (ValueError_int s) in
  let '(negative, body) := take_sign (drop_spaces (list_ascii_of_string s)) in
  match body with
  | "_"%char :: _ => invalid
  | _ =>
      match scan_digits body 0 0 false with
      | None => invalid
      | Some (value, digits, rest) =>
          if over_digit_limit digits then Raise (ValueError_int_digits digits)
          else if (digits =? 0)%nat then invalid
          else match drop_spaces rest with
               | [] => Ok (if negative then - value else value)
               | _ :: _ => invalid
               end
      end
  end.

End IntConversion.

(* ===================================================================== *)
(** ** float(str)                                                         *)
(* ===================================================================== *)

Definition drop_trailing_spaces (cs : list ascii) : list ascii :=
  rev (drop_spaces (rev cs)).

(** Underscores in a float literal must stand between two digits; the
    literal is then read without them.  [prev] is the previous character. *)
Fixpoint strip_underscores (cs : list ascii) (prev : option ascii)
  : option (list ascii) :=
  let prev_digit := match prev with Some p => is_digit p | None => false end in
  let prev_us := match prev with Some p => Ascii.eqb p "_" | None => false end in
  match cs with
  | [] => if prev_us then None else Some []
  | c :: rest =>
      if Ascii.eqb c "_" then
        if prev_digit then strip_underscores rest (Some c) else None
      else if prev_us && negb (is_digit c) then None
      else cons c <$> strip_underscores rest (Some c)
  end.

Fixpoint take_digits (cs : list ascii) : list ascii * list ascii :=
  match cs with
  | c :: rest =>
      if is_digit c then
        let '(ds, tail) := take_digits rest in (c :: ds, tail)
      else ([], cs)
  | [] => ([], [])
  end.

Definition digits_value (ds : list ascii) : Z :=
  fold_left (fun acc c => 10 * acc + digit_value c) ds 0.

(** The exponent part: nothing, or [e]/[E], an optional sign and at least
    one digit, up to the end of the literal. *)
Definition parse_exponent (cs : list ascii) : option Z :=
  match cs with
  | [] => Some 0
  | c :: rest =>
      if Ascii.eqb (lower_char c) "e" then
        let '(negative, after_sign) := take_sign rest in
        match take_digits after_sign with
        | ((_ :: _) as ds, []) =>
            Some (if negative then - digits_value ds else digits_value ds)
        | _ => None
        end
      else None
  end.

(** mantissa * 10^exponent as a reduced fraction. *)
Definition decimal_value (negative : bool) (mantissa exponent : Z) : Q :=
  let m := if negative then - mantissa else mantissa in
  if 0 <=? exponent then Qmake (m * 10 ^ exponent) 1
  else Qred (Qmake m (Z.to_pos (10 ^ (- exponent)))).

(** digits [. digits] [exponent], with a digit on one side of the point. *)
Definition parse_decimal (negative : bool) (cs : list ascii) : option PyFloat :=
  let '(int_part, after_int) := take_digits cs in
  let '(frac_part, after_frac) :=
    match after_int with
    | "."%char :: rest => take_digits rest
    | _ => ([], after_int)
    end in
  match (int_part ++ frac_part)%list with
  | [] => None
  | mantissa =>
      exponent ← parse_exponent after_frac;
      Some (FFinite (decimal_value negative (digits_value mantissa)
                       (exponent - Z.of_nat (List.length frac_part))))
  end.

(** [float(s)]. *)
Definition py_float (s : string) : result PyFloat :=
  let trimmed := drop_trailing_spaces (drop_spaces (list_ascii_of_string s)) in
  let parsed :=
    cs ← strip_underscores trimmed None;
    let '(negative, body) := take_sign cs in
    let word := lower (string_of_list_ascii body) in
    if String.eqb word "inf" || String.eqb word "infinity" then
      Some (FInf negative)
    else if String.eqb word "nan" then Some FNaN
    else parse_decimal negative body in
  match parsed with
  | Some f => Ok f
  | None => Raise (ValueError_float s)
  end.

(** The float literals of the source text, [1.0] and [0.0]. *)
Definition float_1_0 : PyFloat := FFinite 1.
Definition float_0_0 : PyFloat := FFinite 0.

(* ===================================================================== *)
(** ** @dataclass                                                         *)
(* ===================================================================== *)

(** The class of a default value, read off the value as the decorator does
    ([f.default.__class__]). *)
Class PyTyped (A : Type) := class_of : A -> PyClass.

#[global] Instance string_typed : PyTyped string := fun _ => Cstr.
#[global] Instance int_typed : PyTyped Z := fun _ => Cint.
#[global] Instance float_typed : PyTyped PyFloat := fun _ => Cfloat.
#[global] Instance bool_typed : PyTyped bool := fun _ => Cbool.
#[global] Instance list_typed {A} : PyTyped (list A) := fun _ => Clist.
#[global] Instance dict_typed {V} : PyTyped (gmap string V) := fun _ => Cdict.
#[global] Instance optional_typed {A} `{PyTyped A} : PyTyped (option A) :=
  fun o => match o with
           | Some a => class_of a
           | None => CNoneType
           end.

(** [list] and [dict] have no [__hash__]; the other classes here do. *)
Definition unhashable (c : PyClass) : bool :=
  match c with
  | Clist | Cdict => true
  | _ => false
  end.

(** The decorator visits the annotated fields in order and raises
    [ValueError] at the first default of an unhashable class
    ("mutable default ... is not allowed: use default_factory"). *)
Fixpoint dataclass (fields : list (string * PyClass)) : result unit :=
  match fields with
  | [] => Ok tt
  | (name, cls) :: rest =>
      if unhashable cls then Raise (ValueError_mutable_default cls name)
      else dataclass rest
  end.

(** The two coercions the class bodies repeat. *)
Definition env_flag (env : gmap string string) (key default : string) : bool :=
  String.eqb (lower (getenv env key default)) "true".

Definition env_list (env : gmap string string) (key default : string)
  : list string :=
  split "," (getenv env key default).

(* ===================================================================== *)
(** ** The configuration classes                                          *)
(* ===================================================================== *)

(** Each class is a module: [t] is the record of its fields, [body]
    evaluates the class body (the defaults, in source order), [fields]
    lists the annotated fields with the classes of their defaults,
    [define] is the whole class statement (body, then decorator) and
    [new] is the call with no arguments. *)

Module GNSSConfig.

Record t := mk {
  port : string;
  baudrate : Z;
  timeout : PyFloat;
  protocol : string;
  enable_rtcm : bool;
  enable_nmea : bool;
  ubx_rate : Z;
  nav_rate : Z
}.

Definition body (limit : nat) (env : gmap string string) : result t :=
  let port := getenv env "GNSS_PORT" "/dev/ttyACM0" in
  baudrate ← py_int limit (getenv env "GNSS_BAUDRATE" "9600");
  timeout ← py_float (getenv env "GNSS_TIMEOUT" "1.0");
  let protocol := getenv env "GNSS_PROTOCOL" "UBX" in
  let enable_rtcm := env_flag env "GNSS_ENABLE_RTCM" "True" in
  let enable_nmea := env_flag env "GNSS_ENABLE_NMEA" "True" in
  ubx_rate ← py_int limit (getenv env "GNSS_UBX_RATE" "1");
  nav_rate ← py_int limit (getenv env "GNSS_NAV_RATE" "1");
  mret (mk port baudrate timeout protocol enable_rtcm enable_nmea
           ubx_rate nav_rate).

Definition fields (d : t) : list (string * PyClass) :=
  [ ("port", class_of (port d));
    ("baudrate", class_of (baudrate d));
    ("timeout", class_of (timeout d));
    ("protocol", class_of (protocol d));
    ("enable_rtcm", class_of (enable_rtcm d));
    ("enable_nmea", class_of (enable_nmea d));
    ("ubx_rate", class_of (ubx_rate d));
    ("nav_rate", class_of (nav_rate d)) ].

Definition define (limit : nat) (env : gmap string string) : result t :=
  d ← body limit env;
  _ ← dataclass (fields d);
  mret d.

Definition new (defaults : t) : t := defaults.

End GNSSConfig.

Module WebConfig.

Record t := mk {
  host : string;
  port : Z;
  debug : bool;
  secret_key : string;
  cors_origins : list string;
  session_timeout : Z;
  rate_limit : string
}.

Definition body (limit : nat) (env : gmap string string) : result t :=
  let host := getenv env "WEB_HOST" "0.0.0.0" in
  port ← py_int limit (getenv env "WEB_PORT" "5000");
  let debug := env_flag env "WEB_DEBUG" "False" in
  let secret_key :=
    getenv env "WEB_SECRET_KEY" "dev-secret-key-change-in-production" in
  let cors_origins := env_list env "WEB_CORS_ORIGINS" "*" in
  session_timeout ← py_int limit (getenv env "WEB_SESSION_TIMEOUT" "3600");
  let rate_limit := getenv env "WEB_RATE_LIMIT" "100 per minute" in
  mret (mk host port debug secret_key cors_origins session_timeout
           rate_limit).

Definition fields (d : t) : list (string * PyClass) :=
  [ ("host", class_of (host d));
    ("port", class_of (port d));
    ("debug", class_of (debug d));
    ("secret_key", class_of (secret_key d));
    ("cors_origins", class_of (cors_origins d));
    ("session_timeout", class_of (session_timeout d));
    ("rate_limit", class_of (rate_limit d)) ].

Definition define (limit : nat) (env : gmap string string) : result t :=
  d ← body limit env;
  _ ← dataclass (fields d);
  mret d.

Definition new (defaults : t) : t := defaults.

End WebConfig.

Module MapConfig.

Record t := mk {
  default_center : list PyFloat;
  default_zoom : Z;
  max_zoom : Z;
  tile_provider : string;
  tile_attribution : string;
  satellite_layer : bool;
  satellite_url : string
}.

(** The attribution default starts with the two characters the source
    file holds before [<a href]: U+00C2 and U+00A9, written here as the
    bytes 194 and 169. *)
Definition attribution_default : string :=
  String (ascii_of_N 194) (String (ascii_of_N 169)
    (" <a href=" ++ String (ascii_of_N 34)
       ("https://www.openstreetmap.org/copyright" ++ String (ascii_of_N 34)
          ">OpenStreetMap</a> contributors"))).

Definition body (env : gmap string string) : result t :=
  let default_center := [float_0_0; float_0_0] in
  let default_zoom := 2 in
  let max_zoom := 18 in
  let tile_provider :=
    getenv env "MAP_TILE_PROVIDER"
      "https://{s}.tile.openstreetmap.org/{z}/{x}/{y}.png" in
  let tile_attribution :=
    getenv env "MAP_TILE_ATTRIBUTION" attribution_default in
  let satellite_layer := env_flag env "MAP_SATELLITE_LAYER" "True" in
  let satellite_url :=
    getenv env "MAP_SATELLITE_URL"
      "https://server.arcgisonline.com/ArcGIS/rest/services/World_Imagery/MapServer/tile/{z}/{y}/{x}" in
  mret (mk default_center default_zoom max_zoom tile_provider
           tile_attribution satellite_layer satellite_url).

Definition fields (d : t) : list (string * PyClass) :=
  [ ("default_center", class_of (default_center d));
    ("default_zoom", class_of (default_zoom d));
    ("max_zoom", class_of (max_zoom d));
    ("tile_provider", class_of (tile_provider d));
    ("tile_attribution", class_of (tile_attribution d));
    ("satellite_layer", class_of (satellite_layer d));
    ("satellite_url", class_of (satellite_url d)) ].

Definition define (env : gmap string string) : result t :=
  d ← body env;
  _ ← dataclass (fields d);
  mret d.

Definition new (defaults : t) : t := defaults.

End MapConfig.

Module LoggingConfig.

Record t := mk {
  level : string;
  format : string;
  date_format : string;
  file_enabled : bool;
  file_path : string;
  max_file_size : Z;
  backup_count : Z
}.

Definition body (limit : nat) (env : gmap string string) : result t :=
  let level := upper (getenv env "LOG_LEVEL" "INFO") in
  let format := "%(asctime)s - %(name)s - %(levelname)s - %(message)s" in
  let date_format := "%Y-%m-%d %H:%M:%S" in
  let file_enabled := env_flag env "LOG_FILE_ENABLED" "True" in
  let file_path := getenv env "LOG_FILE_PATH" "data/logs/gnss_viewer.log" in
  max_file_size ← py_int limit (getenv env "LOG_MAX_FILE_SIZE" "10485760");
  backup_count ← py_int limit (getenv env "LOG_BACKUP_COUNT" "5");
  mret (mk level format date_format file_enabled file_path max_file_size
           backup_count).

Definition fields (d : t) : list (string * PyClass) :=
  [ ("level", class_of (level d));
    ("format", class_of (format d));
    ("date_format", class_of (date_format d));
    ("file_enabled", class_of (file_enabled d));
    ("file_path", class_of (file_path d));
    ("max_file_size", class_of (max_file_size d));
    ("backup_count", class_of (backup_count d)) ].

Definition define (limit : nat) (env : gmap string string) : result t :=
  d ← body limit env;
  _ ← dataclass (fields d);
  mret d.

Definition new (defaults : t) : t := defaults.

End LoggingConfig.

Module DataConfig.

Record t := mk {
  enable_logging : bool;
  log_directory : string;
  export_directory : string;
  max_history_points : Z;
  export_formats : list string;
  cache_enabled : bool;
  cache_ttl : Z
}.

Definition body (limit : nat) (env : gmap string string) : result t :=
  let enable_logging := env_flag env "DATA_ENABLE_LOGGING" "True" in
  let log_directory := getenv env "DATA_LOG_DIRECTORY" "data/logs" in
  let export_directory := getenv env "DATA_EXPORT_DIRECTORY" "data/exports" in
  max_history_points ← py_int limit (getenv env "DATA_MAX_HISTORY" "10000");
  let export_formats := env_list env "DATA_EXPORT_FORMATS" "csv,json,kml" in
  let cache_enabled := env_flag env "DATA_CACHE_ENABLED" "True" in
  cache_ttl ← py_int limit (getenv env "DATA_CACHE_TTL" "300");
  mret (mk enable_logging log_directory export_directory max_history_points
           export_formats cache_enabled cache_ttl).

Definition fields (d : t) : list (string * PyClass) :=
  [ ("enable_logging", class_of (enable_logging d));
    ("log_directory", class_of (log_directory d));
    ("export_directory", class_of (export_directory d));
    ("max_history_points", class_of (max_history_points d));
    ("export_formats", class_of (export_formats d));
    ("cache_enabled", class_of (cache_enabled d));
    ("cache_ttl", class_of (cache_ttl d)) ].

Definition define (limit : nat) (env : gmap string string) : result t :=
  d ← body limit env;
  _ ← dataclass (fields d);
  mret d.

Definition new (defaults : t) : t := defaults.

End DataConfig.

(** A value stored in one of the heterogeneous dicts. *)
Inductive PyVal :=
  | VBool (b : bool)
  | VStr (s : string)
  | VInt (z : Z).

(** A dict display [{k1: v1, k2: v2, ...}]: the items are stored left to
    right, a later item replacing an earlier one with the same key. *)
Definition py_dict `{Countable K} {V} (items : list (K * V)) : gmap K V :=
  fold_left (fun d item => <[item.1 := item.2]> d) items ∅.

Module SatelliteConfig.

(** [systems: Dict[str, Dict] = None]: [None] is Python's [None]. *)
Record t := mk {
  systems : option (gmap string (gmap string PyVal))
}.

Definition system (enabled : bool) (color : string) (priority : Z)
    (description : string) : gmap string PyVal :=
  py_dict [ ("enabled", VBool enabled);
            ("color", VStr color);
            ("priority", VInt priority);
            ("description", VStr description) ].

Definition known_systems : gmap string (gmap string PyVal) :=
  py_dict
    [ ("GPS", system true "#00ff88" 1 "Global Positioning System (USA)");
      ("GLONASS", system true "#ff4444" 2
                    "Global Navigation Satellite System (Russia)");
      ("Galileo", system true "#4488ff" 3
                    "European Global Navigation Satellite System");
      ("BeiDou", system true "#ffaa00" 4
                   "BeiDou Navigation Satellite System (China)");
      ("QZSS", system false "#aa00ff" 5
                 "Quasi-Zenith Satellite System (Japan)");
      ("SBAS", system false "#ff00aa" 6
                 "Satellite-Based Augmentation Systems") ].

Definition body : result t := mret (mk None).

Definition fields (d : t) : list (string * PyClass) :=
  [ ("systems", class_of (systems d)) ].

Definition define : result t :=
  d ← body;
  _ ← dataclass (fields d);
  mret d.

Definition __post_init__ (self : t) : t :=
  match systems self with
  | None => mk (Some known_systems)
  | Some _ => self
  end.

(** [SatelliteConfig(systems)]: the generated [__init__] stores the
    argument and then runs [__post_init__]. *)
Definition init (systems : option (gmap string (gmap string PyVal))) : t :=
  __post_init__ (mk systems).

(** [SatelliteConfig()]: the argument takes the class default. *)
Definition new (defaults : t) : t := init (systems defaults).

End SatelliteConfig.

(* ===================================================================== *)
(** ** Importing the settings module                                      *)
(* ===================================================================== *)

(** The six module-level instances. *)
Record Settings := mkSettings {
  gnss_config : GNSSConfig.t;
  web_config : WebConfig.t;
  map_config : MapConfig.t;
  logging_config : LoggingConfig.t;
  data_config : DataConfig.t;
  satellite_config : SatelliteConfig.t
}.

(** The module body, top to bottom: the six class statements, then the six
    instances. *)
Definition load_settings (limit : nat) (env : gmap string string)
  : result Settings :=
  GNSSConfig_cls ← GNSSConfig.define limit env;
  WebConfig_cls ← WebConfig.define limit env;
  MapConfig_cls ← MapConfig.define env;
  LoggingConfig_cls ← LoggingConfig.define limit env;
  DataConfig_cls ← DataConfig.define limit env;
  SatelliteConfig_cls ← SatelliteConfig.define;
  mret (mkSettings (GNSSConfig.new GNSSConfig_cls)
                   (WebConfig.new WebConfig_cls)
                   (MapConfig.new MapConfig_cls)
                   (LoggingConfig.new LoggingConfig_cls)
                   (DataConfig.new DataConfig_cls)
                   (SatelliteConfig.new SatelliteConfig_cls)).

(* ===================================================================== *)
(** ** The constants module                                               *)
(* ===================================================================== *)

Module Constants.

Definition VERSION : string := "1.0.0".
Definition API_VERSION : string := "v1".

Definition GNSS_FIX_QUALITY : gmap Z string :=
  py_dict [ (0, "No Fix"); (1, "GPS Fix"); (2, "DGPS Fix"); (3, "PPS Fix");
            (4, "RTK Fixed"); (5, "RTK Float"); (6, "DR"); (7, "Manual");
            (8, "Simulation") ].

Definition GNSS_SIGNAL_QUALITY : gmap Z string :=
  py_dict [ (0, "No Signal"); (1, "Searching"); (2, "Acquired");
            (3, "Unusable"); (4, "Code Lock"); (5, "Code & Carrier Lock");
            (6, "Code & Carrier Lock (Time)") ].

Definition UBX_CLASSES : gmap Z string :=
  py_dict [ (0x01, "NAV"); (0x02, "RXM"); (0x04, "INF"); (0x05, "ACK");
            (0x06, "CFG"); (0x0A, "MON"); (0x0D, "TIM"); (0x10, "ESF");
            (0x13, "MGA"); (0x21, "LOG"); (0x27, "SEC"); (0x28, "HNR") ].

Definition NMEA_SENTENCES : gmap string string :=
  py_dict [ ("GGA", "Global Positioning System Fix Data");
            ("GLL", "Geographic Position - Latitude/Longitude");
            ("GSA", "GNSS DOP and Active Satellites");
            ("GSV", "GNSS Satellites in View");
            ("RMC", "Recommended Minimum Specific GNSS Data");
            ("VTG", "Course Over Ground and Ground Speed");
            ("ZDA", "Time & Date");
            ("PUBX", "u-blox Proprietary") ].

Definition ERROR_CODES : gmap string string :=
  py_dict [ ("GNSS001", "GNSS receiver not connected");
            ("GNSS002", "Invalid NMEA sentence");
            ("GNSS003", "Serial port error");
            ("WEB001", "Invalid API request");
            ("WEB002", "Resource not found");
            ("WEB003", "Rate limit exceeded");
            ("SYS001", "System configuration error");
            ("SYS002", "Database connection failed") ].

Definition STATUS_MESSAGES : gmap string string :=
  py_dict [ ("CONNECTING", "Connecting to GNSS receiver...");
            ("CONNECTED", "GNSS receiver connected");
            ("DISCONNECTED", "GNSS receiver disconnected");
            ("NO_FIX", "No satellite fix");
            ("2D_FIX", "2D fix acquired");
            ("3D_FIX", "3D fix acquired");
            ("RTK_FLOAT", "RTK float solution");
            ("RTK_FIXED", "RTK fixed solution") ].

Definition COLORS : gmap string string :=
  py_dict [ ("primary", "#0066cc"); ("secondary", "#00cc66");
            ("accent", "#ff9900"); ("danger", "#ff4444");
            ("warning", "#ffaa00"); ("info", "#00aaff");
            ("success", "#00cc88"); ("dark", "#1a1a2e");
            ("light", "#f8f9fa") ].

Definition API_RESPONSE : gmap string (gmap string PyVal) :=
  py_dict [ ("success", py_dict [ ("status", VStr "success");
                                  ("code", VInt 200) ]);
            ("error", py_dict [ ("status", VStr "error");
                                ("code", VInt 400) ]) ].

(** The module namespace after import. *)
Record namespace := mk {
  version : string;
  api_version : string;
  fix_quality : gmap Z string;
  signal_quality : gmap Z string;
  ubx_classes : gmap Z string;
  nmea_sentences : gmap string string;
  error_codes : gmap string string;
  status_messages : gmap string string;
  colors : gmap string string;
  api_response : gmap string (gmap string PyVal)
}.

Definition load : namespace :=
  mk VERSION API_VERSION GNSS_FIX_QUALITY GNSS_SIGNAL_QUALITY UBX_CLASSES
     NMEA_SENTENCES ERROR_CODES STATUS_MESSAGES COLORS API_RESPONSE.

End Constants.

(* ===================================================================== *)
(** ** setup_logging                                                      *)
(* ===================================================================== *)

(** [os.path.dirname] on POSIX: the part up to the last slash, without its
    trailing slashes unless it consists of slashes only. *)
Definition is_slash (c : ascii) : bool := Ascii.eqb c "/".

Fixpoint drop_to_slash (reversed : list ascii) : list ascii :=
  match reversed with
  | c :: rest => if is_slash c then reversed else drop_to_slash rest
  | [] => []
  end.

Fixpoint drop_slashes (reversed : list ascii) : list ascii :=
  match reversed with
  | c :: rest => if is_slash c then drop_slashes rest else reversed
  | [] => []
  end.

Definition dirname (path : string) : string :=
  let head := drop_to_slash (rev (list_ascii_of_string path)) in
  if forallb is_slash head then string_of_list_ascii (rev head)
  else string_of_list_ascii (rev (drop_slashes head)).

(** [getattr(logging, name)] passed to [Logger.setLevel]: the level names
    are integers; [BASIC_FORMAT] and [_STYLES] are module attributes that
    [setLevel] refuses; any other name is no attribute of the module. *)
Definition logging_level (name : string) : result Z :=
  if String.eqb name "CRITICAL" then Ok 50
  else if String.eqb name "FATAL" then Ok 50
  else if String.eqb name "ERROR" then Ok 40
  else if String.eqb name "WARNING" then Ok 30
  else if String.eqb name "WARN" then Ok 30
  else if String.eqb name "INFO" then Ok 20
  else if String.eqb name "DEBUG" then Ok 10
  else if String.eqb name "NOTSET" then Ok 0
  else if String.eqb name "BASIC_FORMAT" || String.eqb name "_STYLES"
  then Raise (LevelError name)
  else Raise (AttributeError "logging" name).

Inductive HandlerKind :=
  | StreamHandler
  | RotatingFileHandler (path : string) (maxBytes backupCount : Z).

Record Handler := mkHandler {
  kind : HandlerKind;
  formatter_fmt : string;
  formatter_datefmt : string
}.

Record Logger := mkLogger {
  logger_level : Z;
  handlers : list Handler
}.

Section Process.

(** The file system is left abstract: [makedirs fs path] is
    [os.makedirs(path, exist_ok=True)] and [open_append fs path] is the
    opening of the log file by the rotating handler. *)
Variable FS : Type.
Variable makedirs : FS -> string -> result FS.
Variable open_append : FS -> string -> result FS.

(** What a running process holds: the two imported modules, the root
    logger, whether [logging.handlers] has been imported by anyone (the
    settings module imports [logging] only), and the file system. *)
Record World := mkWorld {
  constants : Constants.namespace;
  settings : Settings;
  root_logger : Logger;
  handlers_imported : bool;
  filesystem : FS
}.

Definition with_logger (w : World) (l : Logger) : World :=
  mkWorld (constants w) (settings w) l (handlers_imported w) (filesystem w).

Definition with_filesystem (w : World) (fs : FS) : World :=
  mkWorld (constants w) (settings w) (root_logger w) (handlers_imported w) fs.

Definition addHandler (l : Logger) (h : Handler) : Logger :=
  mkLogger (logger_level l) (handlers l ++ [h]).

(** The function returns the world it leaves behind together with its
    result; an exception keeps the effects made before it. *)
Definition setup_logging (w : World) : World * result Logger :=
  let cfg := logging_config (settings w) in
  match logging_level (LoggingConfig.level cfg) with
  | Raise e => (w, Raise e)
  | Ok level =>
      let console_handler :=
        mkHandler StreamHandler (LoggingConfig.format cfg)
                  (LoggingConfig.date_format cfg) in
      let logger :=
        addHandler (mkLogger level (handlers (root_logger w)))
                   console_handler in
      let w := with_logger w logger in
      if LoggingConfig.file_enabled cfg then
        match makedirs (filesystem w)
                       (dirname (LoggingConfig.file_path cfg)) with
        | Raise e => (w, Raise e)
        | Ok fs =>
            let w := with_filesystem w fs in
            if handlers_imported w then
              match open_append fs (LoggingConfig.file_path cfg) with
              | Raise e => (w, Raise e)
              | Ok fs =>
                  let file_handler :=
                    mkHandler
                      (RotatingFileHandler
                         (LoggingConfig.file_path cfg)
                         (LoggingConfig.max_file_size cfg)
                         (LoggingConfig.backup_count cfg))
                      (LoggingConfig.format cfg)
                      (LoggingConfig.date_format cfg) in
                  let logger := addHandler logger file_handler in
                  (with_logger (with_filesystem w fs) logger, Ok logger)
              end
            else (w, Raise (AttributeError "logging" "handlers"))
        end
      else (w, Ok logger)
  end.

(** One step of the running program: the only operation the two modules
    offer besides reading their names is [setup_logging]. *)
Inductive step : World -> World -> Prop :=
  | step_setup_logging w : step w (setup_logging w).1.

End Process.

Arguments constants {FS} w.
Arguments settings {FS} w.
Arguments root_logger {FS} w.
Arguments handlers_imported {FS} w.
Arguments filesystem {FS} w.

(* ===================================================================== *)
(** ** The documented variables                                           *)
(* ===================================================================== *)

#[global] Instance result_fmap : FMap result := fun A B f m =>
  match m with
  | Ok a => Ok (f a)
  | Raise e => Raise e
  end.

(** The environment variables of the external-interface table. *)
Inductive EnvVar :=
  | GNSS_PORT | GNSS_BAUDRATE | GNSS_TIMEOUT | GNSS_PROTOCOL
  | GNSS_ENABLE_RTCM | GNSS_ENABLE_NMEA | GNSS_UBX_RATE | GNSS_NAV_RATE
  | WEB_HOST | WEB_PORT | WEB_DEBUG | WEB_SECRET_KEY | WEB_CORS_ORIGINS
  | WEB_SESSION_TIMEOUT | WEB_RATE_LIMIT
  | MAP_TILE_PROVIDER | MAP_TILE_ATTRIBUTION | MAP_SATELLITE_LAYER
  | MAP_SATELLITE_URL
  | LOG_LEVEL | LOG_FILE_ENABLED | LOG_FILE_PATH | LOG_MAX_FILE_SIZE
  | LOG_BACKUP_COUNT
  | DATA_ENABLE_LOGGING | DATA_LOG_DIRECTORY | DATA_EXPORT_DIRECTORY
  | DATA_MAX_HISTORY | DATA_EXPORT_FORMATS | DATA_CACHE_ENABLED
  | DATA_CACHE_TTL.

Definition all_vars : list EnvVar :=
  [ GNSS_PORT; GNSS_BAUDRATE; GNSS_TIMEOUT; GNSS_PROTOCOL; GNSS_ENABLE_RTCM;
    GNSS_ENABLE_NMEA; GNSS_UBX_RATE; GNSS_NAV_RATE;
    WEB_HOST; WEB_PORT; WEB_DEBUG; WEB_SECRET_KEY; WEB_CORS_ORIGINS;
    WEB_SESSION_TIMEOUT; WEB_RATE_LIMIT;
    MAP_TILE_PROVIDER; MAP_TILE_ATTRIBUTION; MAP_SATELLITE_LAYER;
    MAP_SATELLITE_URL;
    LOG_LEVEL; LOG_FILE_ENABLED; LOG_FILE_PATH; LOG_MAX_FILE_SIZE;
    LOG_BACKUP_COUNT;
    DATA_ENABLE_LOGGING; DATA_LOG_DIRECTORY; DATA_EXPORT_DIRECTORY;
    DATA_MAX_HISTORY; DATA_EXPORT_FORMATS; DATA_CACHE_ENABLED;
    DATA_CACHE_TTL ].

Definition var_name (v : EnvVar) : string :=
  match v with
  | GNSS_PORT => "GNSS_PORT"
  | GNSS_BAUDRATE => "GNSS_BAUDRATE"
  | GNSS_TIMEOUT => "GNSS_TIMEOUT"
  | GNSS_PROTOCOL => "GNSS_PROTOCOL"
  | GNSS_ENABLE_RTCM => "GNSS_ENABLE_RTCM"
  | GNSS_ENABLE_NMEA => "GNSS_ENABLE_NMEA"
  | GNSS_UBX_RATE => "GNSS_UBX_RATE"
  | GNSS_NAV_RATE => "GNSS_NAV_RATE"
  | WEB_HOST => "WEB_HOST"
  | WEB_PORT => "WEB_PORT"
  | WEB_DEBUG => "WEB_DEBUG"
  | WEB_SECRET_KEY => "WEB_SECRET_KEY"
  | WEB_CORS_ORIGINS => "WEB_CORS_ORIGINS"
  | WEB_SESSION_TIMEOUT => "WEB_SESSION_TIMEOUT"
  | WEB_RATE_LIMIT => "WEB_RATE_LIMIT"
  | MAP_TILE_PROVIDER => "MAP_TILE_PROVIDER"
  | MAP_TILE_ATTRIBUTION => "MAP_TILE_ATTRIBUTION"
  | MAP_SATELLITE_LAYER => "MAP_SATELLITE_LAYER"
  | MAP_SATELLITE_URL => "MAP_SATELLITE_URL"
  | LOG_LEVEL => "LOG_LEVEL"
  | LOG_FILE_ENABLED => "LOG_FILE_ENABLED"
  | LOG_FILE_PATH => "LOG_FILE_PATH"
  | LOG_MAX_FILE_SIZE => "LOG_MAX_FILE_SIZE"
  | LOG_BACKUP_COUNT => "LOG_BACKUP_COUNT"
  | DATA_ENABLE_LOGGING => "DATA_ENABLE_LOGGING"
  | DATA_LOG_DIRECTORY => "DATA_LOG_DIRECTORY"
  | DATA_EXPORT_DIRECTORY => "DATA_EXPORT_DIRECTORY"
  | DATA_MAX_HISTORY => "DATA_MAX_HISTORY"
  | DATA_EXPORT_FORMATS => "DATA_EXPORT_FORMATS"
  | DATA_CACHE_ENABLED => "DATA_CACHE_ENABLED"
  | DATA_CACHE_TTL => "DATA_CACHE_TTL"
  end.

(** A field value of any of the five field types. *)
Inductive Value :=
  | Str (s : string)
  | Int (z : Z)
  | Float (f : PyFloat)
  | Bool (b : bool)
  | StrList (l : list string).

(** What the class body binds to the field that reads variable [v]: the
    field of the record the body evaluates to, or the exception the body
    raises. *)
Definition body_value (v : EnvVar) (limit : nat) (env : gmap string string)
  : result Value :=
  let gnss := GNSSConfig.body limit env in
  let web := WebConfig.body limit env in
  let map := MapConfig.body env in
  let logging := LoggingConfig.body limit env in
  let data := DataConfig.body limit env in
  match v with
  | GNSS_PORT => Str ∘ GNSSConfig.port <$> gnss
  | GNSS_BAUDRATE => Int ∘ GNSSConfig.baudrate <$> gnss
  | GNSS_TIMEOUT => Float ∘ GNSSConfig.timeout <$> gnss
  | GNSS_PROTOCOL => Str ∘ GNSSConfig.protocol <$> gnss
  | GNSS_ENABLE_RTCM => Bool ∘ GNSSConfig.enable_rtcm <$> gnss
  | GNSS_ENABLE_NMEA => Bool ∘ GNSSConfig.enable_nmea <$> gnss
  | GNSS_UBX_RATE => Int ∘ GNSSConfig.ubx_rate <$> gnss
  | GNSS_NAV_RATE => Int ∘ GNSSConfig.nav_rate <$> gnss
  | WEB_HOST => Str ∘ WebConfig.host <$> web
  | WEB_PORT => Int ∘ WebConfig.port <$> web
  | WEB_DEBUG => Bool ∘ WebConfig.debug <$> web
  | WEB_SECRET_KEY => Str ∘ WebConfig.secret_key <$> web
  | WEB_CORS_ORIGINS => StrList ∘ WebConfig.cors_origins <$> web
  | WEB_SESSION_TIMEOUT => Int ∘ WebConfig.session_timeout <$> web
  | WEB_RATE_LIMIT => Str ∘ WebConfig.rate_limit <$> web
  | MAP_TILE_PROVIDER => Str ∘ MapConfig.tile_provider <$> map
  | MAP_TILE_ATTRIBUTION => Str ∘ MapConfig.tile_attribution <$> map
  | MAP_SATELLITE_LAYER => Bool ∘ MapConfig.satellite_layer <$> map
  | MAP_SATELLITE_URL => Str ∘ MapConfig.satellite_url <$> map
  | LOG_LEVEL => Str ∘ LoggingConfig.level <$> logging
  | LOG_FILE_ENABLED => Bool ∘ LoggingConfig.file_enabled <$> logging
  | LOG_FILE_PATH => Str ∘ LoggingConfig.file_path <$> logging
  | LOG_MAX_FILE_SIZE => Int ∘ LoggingConfig.max_file_size <$> logging
  | LOG_BACKUP_COUNT => Int ∘ LoggingConfig.backup_count <$> logging
  | DATA_ENABLE_LOGGING => Bool ∘ DataConfig.enable_logging <$> data
  | DATA_LOG_DIRECTORY => Str ∘ DataConfig.log_directory <$> data
  | DATA_EXPORT_DIRECTORY => Str ∘ DataConfig.export_directory <$> data
  | DATA_MAX_HISTORY => Int ∘ DataConfig.max_history_points <$> data
  | DATA_EXPORT_FORMATS => StrList ∘ DataConfig.export_formats <$> data
  | DATA_CACHE_ENABLED => Bool ∘ DataConfig.cache_enabled <$> data
  | DATA_CACHE_TTL => Int ∘ DataConfig.cache_ttl <$> data
  end.

(** *** The table as the specification words it *)

Inductive VarType :=
  | TString | TInteger | TFloat | TBoolean | TList | TUpperString.

(** The Type column. *)
Definition table_type (v : EnvVar) : VarType :=
  match v with
  | GNSS_BAUDRATE | GNSS_UBX_RATE | GNSS_NAV_RATE | WEB_PORT
  | WEB_SESSION_TIMEOUT | LOG_MAX_FILE_SIZE | LOG_BACKUP_COUNT
  | DATA_MAX_HISTORY | DATA_CACHE_TTL => TInteger
  | GNSS_TIMEOUT => TFloat
  | GNSS_ENABLE_RTCM | GNSS_ENABLE_NMEA | WEB_DEBUG | MAP_SATELLITE_LAYER
  | LOG_FILE_ENABLED | DATA_ENABLE_LOGGING | DATA_CACHE_ENABLED => TBoolean
  | WEB_CORS_ORIGINS | DATA_EXPORT_FORMATS => TList
  | LOG_LEVEL => TUpperString
  | _ => TString
  end.

(** The Default column.  The three map rows that the table only describes
    carry the literals of the source. *)
Definition table_default (v : EnvVar) : string :=
  match v with
  | GNSS_PORT => "/dev/ttyACM0"
  | GNSS_BAUDRATE => "9600"
  | GNSS_TIMEOUT => "1.0"
  | GNSS_PROTOCOL => "UBX"
  | GNSS_ENABLE_RTCM => "True"
  | GNSS_ENABLE_NMEA => "True"
  | GNSS_UBX_RATE => "1"
  | GNSS_NAV_RATE => "1"
  | WEB_HOST => "0.0.0.0"
  | WEB_PORT => "5000"
  | WEB_DEBUG => "False"
  | WEB_SECRET_KEY => "dev-secret-key-change-in-production"
  | WEB_CORS_ORIGINS => "*"
  | WEB_SESSION_TIMEOUT => "3600"
  | WEB_RATE_LIMIT => "100 per minute"
  | MAP_TILE_PROVIDER => "https://{s}.tile.openstreetmap.org/{z}/{x}/{y}.png"
  | MAP_TILE_ATTRIBUTION => MapConfig.attribution_default
  | MAP_SATELLITE_LAYER => "True"
  | MAP_SATELLITE_URL =>
      "https://server.arcgisonline.com/ArcGIS/rest/services/World_Imagery/MapServer/tile/{z}/{y}/{x}"
  | LOG_LEVEL => "INFO"
  | LOG_FILE_ENABLED => "True"
  | LOG_FILE_PATH => "data/logs/gnss_viewer.log"
  | LOG_MAX_FILE_SIZE => "10485760"
  | LOG_BACKUP_COUNT => "5"
  | DATA_ENABLE_LOGGING => "True"
  | DATA_LOG_DIRECTORY => "data/logs"
  | DATA_EXPORT_DIRECTORY => "data/exports"
  | DATA_MAX_HISTORY => "10000"
  | DATA_EXPORT_FORMATS => "csv,json,kml"
  | DATA_CACHE_ENABLED => "True"
  | DATA_CACHE_TTL => "300"
  end.

(** The coercions of the settings assembler, by type: string to integer,
    to float, to boolean by comparing the lowercased text with "true", to
    a sequence by cutting at commas. *)
Definition table_coerce (limit : nat) (ty : VarType) (s : string)
  : result Value :=
  match ty with
  | TString => Ok (Str s)
  | TUpperString => Ok (Str (upper s))
  | TInteger => Int <$> py_int limit s
  | TFloat => Float <$> py_float s
  | TBoolean => Ok (Bool (String.eqb (lower s) "true"))
  | TList => Ok (StrList (split "," s))
  end.

Definition numeric (ty : VarType) : bool :=
  match ty with
  | TInteger | TFloat => true
  | _ => false
  end.

(** The exceptions of [int] and [float]. *)
Definition conversion_error (e : PyExn) : bool :=
  match e with
  | ValueError_int _ | ValueError_int_digits _ | ValueError_float _ => true
  | _ => false
  end.


(** Two environments that agree on the documented names. *)
Definition agree (env1 env2 : gmap string string) : Prop :=
  ∀ v : EnvVar, env1 !! var_name v = env2 !! var_name v.

(** The names of the six satellite systems. *)
Definition system_names : list string :=
  ["GPS"; "GLONASS"; "Galileo"; "BeiDou"; "QZSS"; "SBAS"].

(** *** A process to run [setup_logging] in

    Import never hands out a [Settings] value (see [load_settings_outcome]
    below), so the records of this sample process are written out by hand:
    the fields a logging class body would evaluate to with
    [LOG_LEVEL=debug] and [LOG_FILE_PATH=/var/log/gnss.log]. *)

Definition sample_settings : Settings :=
  mkSettings
    (GNSSConfig.mk "/dev/ttyACM0" 9600 float_1_0 "UBX" true true 1 1)
    (WebConfig.mk "0.0.0.0" 5000 false "dev-secret-key-change-in-production"
                  ["*"] 3600 "100 per minute")
    (MapConfig.mk [float_0_0; float_0_0] 2 18
                  (table_default MAP_TILE_PROVIDER)
                  (table_default MAP_TILE_ATTRIBUTION) true
                  (table_default MAP_SATELLITE_URL))
    (LoggingConfig.mk "DEBUG"
                      "%(asctime)s - %(name)s - %(levelname)s - %(message)s"
                      "%Y-%m-%d %H:%M:%S" true "/var/log/gnss.log" 10485760 5)
    (DataConfig.mk true "data/logs" "data/exports" 10000
                   ["csv"; "json"; "kml"] true 300)
    (SatelliteConfig.init None).

(** A file system that is the list of paths created so far, on which
    every directory with a name can be made and every file opened. *)
Definition sample_makedirs (fs : list string) (path : string)
  : result (list string) :=
  if String.eqb path "" then Raise (OSError path) else Ok (path :: fs).
Definition sample_open_append (fs : list string) (path : string)
  : result (list string) := Ok (path :: fs).

Definition sample_world : World (list string) :=
  mkWorld (list string) Constants.load sample_settings (mkLogger 30 [])
          true [].

(* ===================================================================== *)
(** ** Vocabulary of the further properties                               *)
(* ===================================================================== *)

(** [sep.join(pieces)], the inverse of [split]. *)
Fixpoint join (sep : ascii) (pieces : list string) : string :=
  match pieces with
  | [] => EmptyString
  | piece :: rest =>
      match rest with
      | [] => piece
      | _ :: _ => piece ++ String sep (join sep rest)
      end
  end.

(** [s.count(c)] for a character. *)
Fixpoint occurrences (c : ascii) (s : string) : nat :=
  match s with
  | EmptyString => 0
  | String c' rest =>
      if Ascii.eqb c' c then S (occurrences c rest) else occurrences c rest
  end.

(** The exception, if any, that converting the value of [v] raises. *)
Definition conversion_failure (limit : nat) (env : gmap string string)
    (v : EnvVar) : option PyExn :=
  raised (table_coerce limit (table_type v)
            (getenv env (var_name v) (table_default v))).

Fixpoint first_failure (limit : nat) (env : gmap string string)
    (vars : list EnvVar) : option PyExn :=
  match vars with
  | [] => None
  | v :: rest =>
      match conversion_failure limit env v with
      | Some e => Some e
      | None => first_failure limit env rest
      end
  end.

(** The conversions the import reaches, in the order of the source lines
    (20, 21, 27, 28, 34 and 40). *)
Definition import_conversions : list EnvVar :=
  [ GNSS_BAUDRATE; GNSS_TIMEOUT; GNSS_UBX_RATE; GNSS_NAV_RATE;
    WEB_PORT; WEB_SESSION_TIMEOUT ].

(** The handlers one call of [setup_logging] builds from the logging
    record. *)
Definition console_handler (cfg : LoggingConfig.t) : Handler :=
  mkHandler StreamHandler (LoggingConfig.format cfg)
            (LoggingConfig.date_format cfg).

Definition file_handler (cfg : LoggingConfig.t) : Handler :=
  mkHandler (RotatingFileHandler (LoggingConfig.file_path cfg)
                                 (LoggingConfig.max_file_size cfg)
                                 (LoggingConfig.backup_count cfg))
            (LoggingConfig.format cfg) (LoggingConfig.date_format cfg).

Definition added_handlers (cfg : LoggingConfig.t) : list Handler :=
  console_handler cfg
  :: (if LoggingConfig.file_enabled cfg then [file_handler cfg] else []).

(** The numeric values of the level names of [logging]. *)
Definition level_values : list Z := [0; 10; 20; 30; 40; 50].

(** Sample processes that differ from [sample_world] in the logging
    record or in what has been imported. *)
Definition with_logging (s : Settings) (cfg : LoggingConfig.t) : Settings :=
  mkSettings (gnss_config s) (web_config s) (map_config s) cfg
             (data_config s) (satellite_config s).

Definition sample_logging (file_enabled : bool) (file_path : string)
  : LoggingConfig.t :=
  LoggingConfig.mk "INFO"
                   "%(asctime)s - %(name)s - %(levelname)s - %(message)s"
                   "%Y-%m-%d %H:%M:%S" file_enabled file_path 10485760 5.

Definition sample_world_with (cfg : LoggingConfig.t) (handlers_imported : bool)
  : World (list string) :=
  mkWorld (list string) Constants.load (with_logging sample_settings cfg)
          (mkLogger 30 []) handlers_imported [].

(* ===================================================================== *)
(** * Properties                                                          *)
(* ===================================================================== *)

(** ** The primitives on sample inputs *)

Example py_int_9600 : py_int 4300 "9600" = Ok 9600.
Proof. reflexivity. Qed.

Example py_int_padded : py_int 4300 "  -42 " = Ok (-42).
Proof. reflexivity. Qed.

Example py_int_underscore : py_int 4300 "1_000" = Ok 1000.
Proof. reflexivity. Qed.

Example py_int_word : py_int 4300 "fast" = Raise (ValueError_int "fast").
Proof. reflexivity. Qed.

Example py_int_empty : py_int 4300 "" = Raise (ValueError_int "").
Proof. reflexivity. Qed.

Example py_int_decimal_point : py_int 4300 "12.5" = Raise (ValueError_int "12.5").
Proof. reflexivity. Qed.

Example py_float_default : py_float "1.0" = Ok float_1_0.
Proof. reflexivity. Qed.

Example py_float_int : py_float " 2 " = Ok (FFinite 2).
Proof. reflexivity. Qed.

Example py_float_exp : py_float "-.5e-1" = Ok (FFinite (-1 # 20)).
Proof. reflexivity. Qed.

Example py_float_us : py_float "1_0.5_0e1_0" = Ok (FFinite 105000000000).
Proof. reflexivity. Qed.

Example py_float_inf : py_float "-Infinity" = Ok (FInf true).
Proof. reflexivity. Qed.

Example py_float_word : py_float "slow" = Raise (ValueError_float "slow").
Proof. reflexivity. Qed.

Example py_float_bad_exp : py_float "1e+" = Raise (ValueError_float "1e+").
Proof. reflexivity. Qed.

Example py_float_bad_us : py_float "1_.5" = Raise (ValueError_float "1_.5").
Proof. reflexivity. Qed.

Example py_float_dot : py_float "." = Raise (ValueError_float ".").
Proof. reflexivity. Qed.

Example lower_True : lower "True" = "true".
Proof. reflexivity. Qed.

Example upper_info : upper "info" = "INFO".
Proof. reflexivity. Qed.

Example split_keeps_empty : split "," "a,,b," = ["a"; ""; "b"; ""].
Proof. reflexivity. Qed.

Example split_empty : split "," "" = [""].
Proof. reflexivity. Qed.

Example dirname_default : dirname "data/logs/gnss_viewer.log" = "data/logs".
Proof. reflexivity. Qed.

Example dirname_bare : dirname "gnss_viewer.log" = "".
Proof. reflexivity. Qed.

Example dirname_root : dirname "/gnss_viewer.log" = "/".
Proof. reflexivity. Qed.

(** ** Reading the environment *)

Lemma getenv_unset (env : gmap string string) key default :
  env !! key = None -> getenv env key default = default.
Proof. intros H. unfold getenv. now rewrite H. Qed.

Lemma getenv_set (env : gmap string string) key default s :
  env !! key = Some s -> getenv env key default = s.
Proof. intros H. unfold getenv. now rewrite H. Qed.

Lemma getenv_agree env1 env2 (v : EnvVar) default :
  agree env1 env2 ->
  getenv env1 (var_name v) default = getenv env2 (var_name v) default.
Proof. intros H. unfold getenv. now rewrite (H v). Qed.

(** Rewrites every documented [getenv] over [env1] into one over [env2]. *)
Ltac agree_on H :=
  unfold env_flag, env_list;
  rewrite ?(getenv_agree _ _ GNSS_PORT _ H), ?(getenv_agree _ _ GNSS_BAUDRATE _ H),
    ?(getenv_agree _ _ GNSS_TIMEOUT _ H), ?(getenv_agree _ _ GNSS_PROTOCOL _ H),
    ?(getenv_agree _ _ GNSS_ENABLE_RTCM _ H), ?(getenv_agree _ _ GNSS_ENABLE_NMEA _ H),
    ?(getenv_agree _ _ GNSS_UBX_RATE _ H), ?(getenv_agree _ _ GNSS_NAV_RATE _ H),
    ?(getenv_agree _ _ WEB_HOST _ H), ?(getenv_agree _ _ WEB_PORT _ H),
    ?(getenv_agree _ _ WEB_DEBUG _ H), ?(getenv_agree _ _ WEB_SECRET_KEY _ H),
    ?(getenv_agree _ _ WEB_CORS_ORIGINS _ H),
    ?(getenv_agree _ _ WEB_SESSION_TIMEOUT _ H),
    ?(getenv_agree _ _ WEB_RATE_LIMIT _ H), ?(getenv_agree _ _ MAP_TILE_PROVIDER _ H),
    ?(getenv_agree _ _ MAP_TILE_ATTRIBUTION _ H),
    ?(getenv_agree _ _ MAP_SATELLITE_LAYER _ H),
    ?(getenv_agree _ _ MAP_SATELLITE_URL _ H), ?(getenv_agree _ _ LOG_LEVEL _ H),
    ?(getenv_agree _ _ LOG_FILE_ENABLED _ H), ?(getenv_agree _ _ LOG_FILE_PATH _ H),
    ?(getenv_agree _ _ LOG_MAX_FILE_SIZE _ H), ?(getenv_agree _ _ LOG_BACKUP_COUNT _ H),
    ?(getenv_agree _ _ DATA_ENABLE_LOGGING _ H),
    ?(getenv_agree _ _ DATA_LOG_DIRECTORY _ H),
    ?(getenv_agree _ _ DATA_EXPORT_DIRECTORY _ H),
    ?(getenv_agree _ _ DATA_MAX_HISTORY _ H),
    ?(getenv_agree _ _ DATA_EXPORT_FORMATS _ H),
    ?(getenv_agree _ _ DATA_CACHE_ENABLED _ H), ?(getenv_agree _ _ DATA_CACHE_TTL _ H).

Lemma GNSSConfig_body_agree limit env1 env2 :
  agree env1 env2 -> GNSSConfig.body limit env1 = GNSSConfig.body limit env2.
Proof. intros H. unfold GNSSConfig.body. agree_on H. reflexivity. Qed.

Lemma WebConfig_body_agree limit env1 env2 :
  agree env1 env2 -> WebConfig.body limit env1 = WebConfig.body limit env2.
Proof. intros H. unfold WebConfig.body. agree_on H. reflexivity. Qed.

Lemma MapConfig_body_agree env1 env2 :
  agree env1 env2 -> MapConfig.body env1 = MapConfig.body env2.
Proof. intros H. unfold MapConfig.body. agree_on H. reflexivity. Qed.

Lemma LoggingConfig_body_agree limit env1 env2 :
  agree env1 env2 ->
  LoggingConfig.body limit env1 = LoggingConfig.body limit env2.
Proof. intros H. unfold LoggingConfig.body. agree_on H. reflexivity. Qed.

Lemma DataConfig_body_agree limit env1 env2 :
  agree env1 env2 -> DataConfig.body limit env1 = DataConfig.body limit env2.
Proof. intros H. unfold DataConfig.body. agree_on H. reflexivity. Qed.

(** ** The class statements *)

(** Splits on the conversions that occur in hypothesis [H]. *)
Ltac case_conversions H :=
  repeat match type of H with
         | context [py_int ?l ?s] =>
             destruct (py_int l s) eqn:?; simpl in H; try discriminate H
         | context [py_float ?s] =>
             destruct (py_float s) eqn:?; simpl in H; try discriminate H
         end.

(** No default of the receiver class is a list or a dict: the decorator
    accepts whatever the body evaluates to. *)
Lemma GNSSConfig_define_body limit env :
  GNSSConfig.define limit env = GNSSConfig.body limit env.
Proof.
  unfold GNSSConfig.define. destruct (GNSSConfig.body limit env); reflexivity.
Qed.

Lemma LoggingConfig_define_body limit env :
  LoggingConfig.define limit env = LoggingConfig.body limit env.
Proof.
  unfold LoggingConfig.define.
  destruct (LoggingConfig.body limit env); reflexivity.
Qed.

Lemma SatelliteConfig_define_ok :
  SatelliteConfig.define = Ok (SatelliteConfig.mk None).
Proof. reflexivity. Qed.

(** The web, map and data classes each have a list for a default, which
    the decorator refuses once the body has run. *)
Lemma WebConfig_define_raises limit env :
  WebConfig.define limit env =
  match WebConfig.body limit env with
  | Ok _ => Raise (ValueError_mutable_default Clist "cors_origins")
  | Raise e => Raise e
  end.
Proof.
  unfold WebConfig.define. destruct (WebConfig.body limit env); reflexivity.
Qed.

Lemma MapConfig_define_raises env :
  MapConfig.define env =
  Raise (ValueError_mutable_default Clist "default_center").
Proof. reflexivity. Qed.

Lemma DataConfig_define_raises limit env :
  DataConfig.define limit env =
  match DataConfig.body limit env with
  | Ok _ => Raise (ValueError_mutable_default Clist "export_formats")
  | Raise e => Raise e
  end.
Proof.
  unfold DataConfig.define. destruct (DataConfig.body limit env); reflexivity.
Qed.

(** What importing the settings module comes to: the first exception of
    the receiver body, else the first of the web body, else the refusal of
    [cors_origins]. *)
Lemma load_settings_outcome limit env :
  load_settings limit env =
  match GNSSConfig.body limit env with
  | Raise e => Raise e
  | Ok _ =>
      match WebConfig.body limit env with
      | Raise e => Raise e
      | Ok _ => Raise (ValueError_mutable_default Clist "cors_origins")
      end
  end.
Proof.
  unfold load_settings.
  rewrite GNSSConfig_define_body, WebConfig_define_raises.
  destruct (GNSSConfig.body limit env); simpl; [|reflexivity].
  destruct (WebConfig.body limit env); reflexivity.
Qed.

Lemma load_settings_never_returns limit env :
  returned (load_settings limit env) = None.
Proof.
  rewrite load_settings_outcome.
  destruct (GNSSConfig.body limit env); [|reflexivity].
  destruct (WebConfig.body limit env); reflexivity.
Qed.

(** A class body raises nothing but the exceptions of [int] and [float]. *)
Lemma py_int_raises limit s e :
  py_int limit s = Raise e -> conversion_error e = true.
Proof.
  unfold py_int.
  destruct (take_sign _) as [negative body].
  destruct body as [|c cs].
  - simpl. intros [= <-]. reflexivity.
  - destruct (Ascii.eqb c "_") eqn:Hc.
    + apply Ascii.eqb_eq in Hc as ->. intros [= <-]. reflexivity.
    + assert (Hbody :
          match scan_digits (c :: cs) 0 0 false with
          | None => Raise (ValueError_int s)
          | Some (value, digits, rest) =>
              if over_digit_limit limit digits
              then Raise (ValueError_int_digits digits)
              else if (digits =? 0)%nat then Raise (ValueError_int s)
                   else match drop_spaces rest with
                        | [] => Ok (if negative then - value else value)
                        | _ :: _ => Raise (ValueError_int s)
                        end
          end = Raise e -> conversion_error e = true).
      { destruct (scan_digits _ _ _ _) as [[[value digits] rest]|].
        - destruct (over_digit_limit limit digits); [intros [= <-]; reflexivity|].
          destruct (digits =? 0)%nat; [intros [= <-]; reflexivity|].
          destruct (drop_spaces rest); [discriminate|intros [= <-]; reflexivity].
        - intros [= <-]. reflexivity. }
      intros H. apply Hbody.
      destruct c as [[] [] [] [] [] [] [] []]; try exact H; discriminate Hc.
Qed.

Lemma py_float_raises s e :
  py_float s = Raise e -> conversion_error e = true.
Proof.
  unfold py_float. destruct (_ ≫= _); [discriminate|].
  intros [= <-]. reflexivity.
Qed.

Lemma GNSSConfig_body_raises limit env e :
  GNSSConfig.body limit env = Raise e -> conversion_error e = true.
Proof.
  unfold GNSSConfig.body. intros H.
  repeat match type of H with
         | context [py_int ?l ?s] =>
             let E := fresh "E" in
             destruct (py_int l s) eqn:E; simpl in H;
             [clear E | injection H as <-; exact (py_int_raises _ _ _ E)]
         | context [py_float ?s] =>
             let E := fresh "E" in
             destruct (py_float s) eqn:E; simpl in H;
             [clear E | injection H as <-; exact (py_float_raises _ _ E)]
         end.
  discriminate H.
Qed.

Lemma WebConfig_body_raises limit env e :
  WebConfig.body limit env = Raise e -> conversion_error e = true.
Proof.
  unfold WebConfig.body. intros H.
  repeat match type of H with
         | context [py_int ?l ?s] =>
             let E := fresh "E" in
             destruct (py_int l s) eqn:E; simpl in H;
             [clear E | injection H as <-; exact (py_int_raises _ _ _ E)]
         end.
  discriminate H.
Qed.

Lemma LoggingConfig_body_raises limit env e :
  LoggingConfig.body limit env = Raise e -> conversion_error e = true.
Proof.
  unfold LoggingConfig.body. intros H.
  repeat match type of H with
         | context [py_int ?l ?s] =>
             let E := fresh "E" in
             destruct (py_int l s) eqn:E; simpl in H;
             [clear E | injection H as <-; exact (py_int_raises _ _ _ E)]
         end.
  discriminate H.
Qed.

Lemma DataConfig_body_raises limit env e :
  DataConfig.body limit env = Raise e -> conversion_error e = true.
Proof.
  unfold DataConfig.body. intros H.
  repeat match type of H with
         | context [py_int ?l ?s] =>
             let E := fresh "E" in
             destruct (py_int l s) eqn:E; simpl in H;
             [clear E | injection H as <-; exact (py_int_raises _ _ _ E)]
         end.
  discriminate H.
Qed.

Lemma body_value_raises v limit env e :
  body_value v limit env = Raise e -> conversion_error e = true.
Proof.
  destruct v; unfold body_value; intros H;
    match type of H with
    | _ <$> ?b = _ =>
        destruct b eqn:E; [discriminate H | injection H as <-]
    end;
    first [ exact (GNSSConfig_body_raises _ _ _ E)
          | exact (WebConfig_body_raises _ _ _ E)
          | exact (LoggingConfig_body_raises _ _ _ E)
          | exact (DataConfig_body_raises _ _ _ E)
          | discriminate E ].
Qed.

(** ** The class bodies against the table *)

(** Whenever a class body runs to its end, the field that reads variable
    [v] holds the table's coercion of the variable's value, or of the
    table's default when the variable is unset. *)
Lemma body_value_refines_table v limit env val :
  body_value v limit env = Ok val ->
  table_coerce limit (table_type v)
    (getenv env (var_name v) (table_default v)) = Ok val.
Proof.
  destruct v; unfold body_value; simpl;
    unfold GNSSConfig.body, WebConfig.body, MapConfig.body,
      LoggingConfig.body, DataConfig.body, env_flag, env_list;
    intros H; case_conversions H; injection H as <-; reflexivity.
Qed.

(** Conversely a conversion that fails makes the body fail. *)
Lemma body_value_fails v limit env :
  raised (table_coerce limit (table_type v)
            (getenv env (var_name v) (table_default v))) ≠ None ->
  ∃ e, body_value v limit env = Raise e.
Proof.
  intros Hbad. destruct (body_value v limit env) as [val|e] eqn:E; [|eauto].
  apply body_value_refines_table in E. rewrite E in Hbad. now elim Hbad.
Qed.

(** A variable that is unset leaves its field at the table's default,
    as far as the class body is concerned. *)
Lemma unset_field_is_default v limit (env : gmap string string) val :
  env !! var_name v = None ->
  body_value v limit env = Ok val ->
  table_coerce limit (table_type v) (table_default v) = Ok val.
Proof.
  intros Hunset Hval. apply body_value_refines_table in Hval.
  now rewrite (getenv_unset _ _ _ Hunset) in Hval.
Qed.

(** ** Defaults *)

(** C1.  With every documented variable unset, each class body evaluates
    its fields to the defaults of the table, but importing the settings
    module raises ValueError: the decorator refuses the list that is the
    default of [cors_origins], so no configuration record is assembled. *)
Theorem C1_import_with_defaults_raises (limit : nat) :
  (∀ v, body_value v limit ∅
        = table_coerce limit (table_type v) (table_default v))
  ∧ load_settings limit ∅
    = Raise (ValueError_mutable_default Clist "cors_origins").
Proof.
  split; [intros v; destruct v; reflexivity | reflexivity].
Qed.

(** ** Numbers that do not parse *)




(** ** Booleans *)

(** C3.  The value a class body gives a boolean field is true exactly
    when the variable's text, lowercased, is "true": "True", "TRUE" and
    "true" give true; "1", "yes", "false", "0" and "no" give false. *)
Theorem C3_boolean_coercion
    (v : EnvVar) (limit : nat) (env : gmap string string) (s : string)
    (val : Value) :
  table_type v = TBoolean ->
  env !! var_name v = Some s ->
  body_value v limit env = Ok val ->
  (val = Bool true ↔ lower s = "true")
  ∧ (val = Bool false ↔ lower s ≠ "true")
  ∧ (s ∈ ["True"; "TRUE"; "true"] -> val = Bool true)
  ∧ (s ∈ ["1"; "yes"; "false"; "0"; "no"] -> val = Bool false).
Proof.
  intros Hty Hset Hval.
  apply body_value_refines_table in Hval.
  rewrite Hty, (getenv_set _ _ _ _ Hset) in Hval. simpl in Hval.
  injection Hval as <-.
  destruct (String.eqb (lower s) "true") eqn:E.
  - apply String.eqb_eq in E.
    repeat split; try (intros; congruence).
    intros Hin. exfalso. set_unfold in Hin.
    destruct Hin as [->|[->|[->|[->|[->|[]]]]]]; discriminate E.
  - apply String.eqb_neq in E.
    repeat split; try (intros; congruence).
    intros Hin. exfalso. set_unfold in Hin.
    destruct Hin as [->|[->|[->|[]]]]; apply E; reflexivity.
Qed.

Lemma C3_boolean_coercion_witness :
  let env : gmap string string := {[ "WEB_DEBUG" := "TRUE" ]} in
  table_type WEB_DEBUG = TBoolean
  ∧ env !! var_name WEB_DEBUG = Some "TRUE"
  ∧ body_value WEB_DEBUG 4300 env = Ok (Bool true)
  ∧ (Bool true = Bool true ↔ lower "TRUE" = "true")
  ∧ (Bool true = Bool false ↔ lower "TRUE" ≠ "true")
  ∧ ("TRUE" ∈ ["True"; "TRUE"; "true"] -> Bool true = Bool true)
  ∧ ("TRUE" ∈ ["1"; "yes"; "false"; "0"; "no"] -> Bool true = Bool false).
Proof.
  intros env.
  assert (H1 : table_type WEB_DEBUG = TBoolean) by reflexivity.
  assert (H2 : env !! var_name WEB_DEBUG = Some "TRUE") by reflexivity.
  assert (H3 : body_value WEB_DEBUG 4300 env = Ok (Bool true)) by reflexivity.
  pose proof (C3_boolean_coercion WEB_DEBUG 4300 env "TRUE" (Bool true)
                H1 H2 H3) as (Ht & Hf & Hyes & Hno).
  repeat split; first [assumption | apply Ht | apply Hf].
Defined.

(** ** Comma-separated lists *)

(** C4.  The web class body cuts [WEB_CORS_ORIGINS] at every comma and
    trims nothing: "a,b,c" gives [a; b; c], "a, b" gives [a; " b"], unset
    gives ["*"].  The list never becomes the field of a record, though:
    being a list, the decorator refuses it as a default, whatever the
    environment, and the class statement raises ValueError. *)
Theorem C4_cors_origins_split_then_refused (limit : nat) :
  body_value WEB_CORS_ORIGINS limit {[ "WEB_CORS_ORIGINS" := "a,b,c" ]}
    = Ok (StrList ["a"; "b"; "c"])
  ∧ body_value WEB_CORS_ORIGINS limit {[ "WEB_CORS_ORIGINS" := "a, b" ]}
    = Ok (StrList ["a"; " b"])
  ∧ body_value WEB_CORS_ORIGINS limit ∅ = Ok (StrList ["*"])
  ∧ WebConfig.define limit {[ "WEB_CORS_ORIGINS" := "a,b,c" ]}
    = Raise (ValueError_mutable_default Clist "cors_origins")
  ∧ (∀ env, returned (WebConfig.define limit env) = None)
  ∧ (∀ env, returned (DataConfig.define limit env) = None).
Proof.
  repeat split; try reflexivity.
  - intros env. rewrite WebConfig_define_raises.
    destruct (WebConfig.body limit env); reflexivity.
  - intros env. rewrite DataConfig_define_raises.
    destruct (DataConfig.body limit env); reflexivity.
Qed.

(** ** The satellite registry *)

(** C5.  Constructed with [systems] left at [None], the registry holds
    exactly the six systems GPS, GLONASS, Galileo, BeiDou, QZSS and SBAS;
    each entry has exactly an enabled flag, a color, a priority and a
    description; GPS is enabled with priority 1 and QZSS is disabled with
    priority 5. *)
Theorem C5_default_registry :
  ∃ registry,
    SatelliteConfig.systems (SatelliteConfig.init None) = Some registry
    ∧ dom registry = list_to_set system_names
    ∧ size registry = 6%nat
    ∧ (∀ name, name ∈ system_names ->
         ∃ info enabled color priority description,
           registry !! name = Some info
           ∧ size info = 4%nat
           ∧ info !! "enabled" = Some (VBool enabled)
           ∧ info !! "color" = Some (VStr color)
           ∧ info !! "priority" = Some (VInt priority)
           ∧ info !! "description" = Some (VStr description))
    ∧ (∃ gps, registry !! "GPS" = Some gps
              ∧ gps !! "enabled" = Some (VBool true)
              ∧ gps !! "priority" = Some (VInt 1))
    ∧ (∃ qzss, registry !! "QZSS" = Some qzss
               ∧ qzss !! "enabled" = Some (VBool false)
               ∧ qzss !! "priority" = Some (VInt 5)).
Proof.
  exists SatelliteConfig.known_systems.
  split; [reflexivity|].
  split; [vm_compute; reflexivity|].
  split; [vm_compute; reflexivity|].
  split.
  - intros name Hin. unfold system_names in Hin. set_unfold in Hin.
    destruct Hin as [->|[->|[->|[->|[->|[->|[]]]]]]];
      eexists _, _, _, _, _; repeat split; vm_compute; reflexivity.
  - split; eexists; repeat split; vm_compute; reflexivity.
Qed.

(** ** The constants tables *)

(** C6.  The fix-quality table has the keys 0 to 8 and the signal-quality
    table the keys 0 to 6; the sentence-type, error-code and
    status-message tables have 8 entries each and the color table 9; the
    protocol-class table has 12 entries. *)
Theorem C6_table_sizes :
  dom Constants.GNSS_FIX_QUALITY = list_to_set [0; 1; 2; 3; 4; 5; 6; 7; 8]
  ∧ dom Constants.GNSS_SIGNAL_QUALITY = list_to_set [0; 1; 2; 3; 4; 5; 6]
  ∧ size Constants.UBX_CLASSES = 12%nat
  ∧ size Constants.NMEA_SENTENCES = 8%nat
  ∧ size Constants.ERROR_CODES = 8%nat
  ∧ size Constants.STATUS_MESSAGES = 8%nat
  ∧ size Constants.COLORS = 9%nat.
Proof. repeat split; vm_compute; reflexivity. Qed.

(** C6, as the specification counts: the sizes it states do not all hold,
    the protocol-class table not having 8 entries. *)
Lemma C6_protocol_class_table_has_not_8_entries :
  ¬ (dom Constants.GNSS_FIX_QUALITY = list_to_set [0; 1; 2; 3; 4; 5; 6; 7; 8]
     ∧ dom Constants.GNSS_SIGNAL_QUALITY = list_to_set [0; 1; 2; 3; 4; 5; 6]
     ∧ size Constants.UBX_CLASSES = 8%nat
     ∧ size Constants.NMEA_SENTENCES = 8%nat
     ∧ size Constants.ERROR_CODES = 8%nat
     ∧ size Constants.STATUS_MESSAGES = 8%nat
     ∧ size Constants.COLORS = 9%nat).
Proof. intros (_ & _ & H & _). vm_compute in H. discriminate H. Qed.

(** C7.  Looking up fix-quality code 4 gives "RTK Fixed"; looking up code
    99 gives nothing, and so does every code outside 0..8. *)
Theorem C7_fix_quality_lookup :
  Constants.GNSS_FIX_QUALITY !! 4 = Some "RTK Fixed"
  ∧ Constants.GNSS_FIX_QUALITY !! 99 = None
  ∧ ∀ code : Z, is_Some (Constants.GNSS_FIX_QUALITY !! code) ↔ 0 ≤ code ≤ 8.
Proof.
  split; [reflexivity|]. split; [reflexivity|].
  intros code. rewrite <- elem_of_dom.
  replace (dom Constants.GNSS_FIX_QUALITY)
    with (list_to_set (C := gset Z) [0; 1; 2; 3; 4; 5; 6; 7; 8])
    by (vm_compute; reflexivity).
  set_unfold. lia.
Qed.

(** ** Determinism *)

(** C8.  Assembly is a function of the environment snapshot, and of the
    documented variables only: two runs whose snapshots agree on them
    evaluate every class body to the same record, or raise the same
    exception, and end the import alike. *)
Theorem C8_assembly_is_deterministic
    (limit : nat) (env1 env2 : gmap string string) :
  agree env1 env2 ->
  GNSSConfig.define limit env1 = GNSSConfig.define limit env2
  ∧ WebConfig.define limit env1 = WebConfig.define limit env2
  ∧ MapConfig.define env1 = MapConfig.define env2
  ∧ LoggingConfig.define limit env1 = LoggingConfig.define limit env2
  ∧ DataConfig.define limit env1 = DataConfig.define limit env2
  ∧ (∀ v, body_value v limit env1 = body_value v limit env2)
  ∧ load_settings limit env1 = load_settings limit env2.
Proof.
  intros H.
  pose proof (GNSSConfig_body_agree limit _ _ H) as Hg.
  pose proof (WebConfig_body_agree limit _ _ H) as Hw.
  pose proof (MapConfig_body_agree _ _ H) as Hm.
  pose proof (LoggingConfig_body_agree limit _ _ H) as Hl.
  pose proof (DataConfig_body_agree limit _ _ H) as Hd.
  unfold GNSSConfig.define, WebConfig.define, MapConfig.define,
    LoggingConfig.define, DataConfig.define, load_settings, body_value.
  unfold GNSSConfig.define, WebConfig.define, MapConfig.define,
    LoggingConfig.define, DataConfig.define.
  rewrite Hg, Hw, Hm, Hl, Hd. repeat split; reflexivity.
Qed.

Lemma C8_assembly_is_deterministic_witness :
  let env1 : gmap string string := {[ "WEB_PORT" := "8080" ]} in
  let env2 : gmap string string := <[ "HOME" := "/root" ]> env1 in
  agree env1 env2
  ∧ GNSSConfig.define 4300 env1 = GNSSConfig.define 4300 env2
  ∧ WebConfig.define 4300 env1 = WebConfig.define 4300 env2
  ∧ MapConfig.define env1 = MapConfig.define env2
  ∧ LoggingConfig.define 4300 env1 = LoggingConfig.define 4300 env2
  ∧ DataConfig.define 4300 env1 = DataConfig.define 4300 env2
  ∧ (∀ v, body_value v 4300 env1 = body_value v 4300 env2)
  ∧ load_settings 4300 env1 = load_settings 4300 env2.
Proof.
  intros env1 env2.
  assert (H : agree env1 env2) by (intros v; destruct v; reflexivity).
  split; [exact H|].
  exact (C8_assembly_is_deterministic 4300 env1 env2 H).
Defined.

(** ** Nothing is mutated after initialisation *)

Lemma setup_logging_frame {FS} makedirs open_append (w : World FS) :
  settings (setup_logging FS makedirs open_append w).1 = settings w
  ∧ constants (setup_logging FS makedirs open_append w).1 = constants w.
Proof.
  unfold setup_logging.
  destruct (logging_level _); [|split; reflexivity].
  destruct (LoggingConfig.file_enabled _); [|split; reflexivity].
  simpl. destruct (makedirs _ _); [|split; reflexivity].
  simpl. destruct (handlers_imported w); [|split; reflexivity].
  destruct (open_append _ _); split; reflexivity.
Qed.

(** Self-initialisation belongs to construction: run on a constructed
    registry again, it changes nothing. *)
Lemma post_init_after_init systems :
  SatelliteConfig.__post_init__ (SatelliteConfig.init systems)
  = SatelliteConfig.init systems.
Proof. destruct systems; reflexivity. Qed.

(** C9.  However the program runs on after initialisation, and whatever
    the file system answers, the configuration records and the constants
    tables stay what they were: [setup_logging] writes to the root logger
    and to the file system only. *)
Theorem C9_records_and_tables_stay_unchanged
    {FS} (makedirs open_append : FS -> string -> result FS)
    (w w' : World FS) :
  rtc (step FS makedirs open_append) w w' ->
  settings w' = settings w ∧ constants w' = constants w.
Proof.
  induction 1 as [w | w w1 w' Hstep _ [IHs IHc]]; [split; reflexivity|].
  destruct Hstep as [w].
  destruct (setup_logging_frame makedirs open_append w) as [Hs Hc].
  split; congruence.
Qed.

Lemma C9_records_and_tables_stay_unchanged_witness :
  let w' := (setup_logging _ sample_makedirs sample_open_append
               sample_world).1 in
  rtc (step _ sample_makedirs sample_open_append) sample_world w'
  ∧ length (handlers (root_logger w')) = 2%nat
  ∧ settings w' = settings sample_world
  ∧ constants w' = constants sample_world.
Proof.
  intros w'.
  assert (H : rtc (step _ sample_makedirs sample_open_append) sample_world w')
    by (apply rtc_once; constructor).
  split; [exact H|]. split; [reflexivity|].
  exact (C9_records_and_tables_stay_unchanged _ _ _ _ H).
Defined.

(** ** The map class *)

(** C10.  In every environment the map class body binds [default_center]
    to [0.0, 0.0], [default_zoom] to 2 and [max_zoom] to 18, reading no
    variable for them, but the class statement then raises ValueError: the
    decorator refuses the list that is the default of [default_center], so
    no map configuration record exists. *)
Theorem C10_map_class_is_refused (limit : nat) (env : gmap string string) :
  (∃ d, MapConfig.body env = Ok d
        ∧ MapConfig.default_center d = [float_0_0; float_0_0]
        ∧ MapConfig.default_zoom d = 2
        ∧ MapConfig.max_zoom d = 18)
  ∧ MapConfig.define env
    = Raise (ValueError_mutable_default Clist "default_center")
  ∧ returned (load_settings limit env) = None.
Proof.
  split; [eexists; repeat split; reflexivity|].
  split; [reflexivity | apply load_settings_never_returns].
Qed.

(* ===================================================================== *)
(** * Further properties                                                  *)
(* ===================================================================== *)

(** ** Comma-separated values *)

Lemma split_nonempty sep s : split sep s ≠ [].
Proof.
  destruct s as [|c rest]; simpl; [discriminate|].
  destruct (Ascii.eqb c sep); [discriminate|].
  destruct (split sep rest); discriminate.
Qed.

Lemma join_cons sep piece rest :
  rest ≠ [] -> join sep (piece :: rest) = piece ++ String sep (join sep rest).
Proof. destruct rest; [congruence | reflexivity]. Qed.

Lemma join_split sep s : join sep (split sep s) = s.
Proof.
  induction s as [|c rest IH]; [reflexivity|].
  simpl. destruct (Ascii.eqb c sep) eqn:E.
  - apply Ascii.eqb_eq in E as ->.
    rewrite join_cons by apply split_nonempty. simpl. now rewrite IH.
  - pose proof (split_nonempty sep rest) as Hne.
    destruct (split sep rest) as [|piece more]; [congruence|].
    destruct more as [|next more].
    + simpl in *. now rewrite IH.
    + change (join sep (String c piece :: next :: more))
        with (String c (join sep (piece :: next :: more))).
      now rewrite IH.
Qed.

Lemma split_length sep s :
  length (split sep s) = S (occurrences sep s).
Proof.
  induction s as [|c rest IH]; [reflexivity|].
  simpl. destruct (Ascii.eqb c sep); simpl; [now rewrite IH|].
  pose proof (split_nonempty sep rest) as Hne.
  destruct (split sep rest); [congruence|]. exact IH.
Qed.

Lemma split_pieces_clean sep s :
  Forall (fun piece => occurrences sep piece = 0%nat) (split sep s).
Proof.
  induction s as [|c rest IH]; [repeat constructor|].
  simpl. destruct (Ascii.eqb c sep) eqn:E; [constructor; [reflexivity|exact IH]|].
  destruct (split sep rest) as [|piece more]; [repeat constructor; simpl; now rewrite E|].
  inversion IH as [|? ? Hpiece Hmore]; subst.
  constructor; [simpl; now rewrite E | exact Hmore].
Qed.

(** X1.  Whenever the class body of a list variable runs to its end, the
    list it binds is never empty, has one entry more than the text has
    commas, holds no entry with a comma in it, and gives the text of the
    variable (or of the default) back when joined with commas: nothing is
    trimmed or dropped. *)
Theorem X1_list_fields_keep_the_text
    (v : EnvVar) (limit : nat) (env : gmap string string) (val : Value) :
  table_type v = TList ->
  body_value v limit env = Ok val ->
  ∃ pieces,
    val = StrList pieces
    ∧ pieces ≠ []
    ∧ length pieces
      = S (occurrences "," (getenv env (var_name v) (table_default v)))
    ∧ Forall (fun piece => occurrences "," piece = 0%nat) pieces
    ∧ join "," pieces = getenv env (var_name v) (table_default v).
Proof.
  intros Hty Hval. apply body_value_refines_table in Hval.
  rewrite Hty in Hval. simpl in Hval. injection Hval as <-.
  eexists. split; [reflexivity|].
  split; [apply split_nonempty|].
  split; [apply split_length|].
  split; [apply split_pieces_clean | apply join_split].
Qed.

Lemma X1_list_fields_keep_the_text_witness :
  let env : gmap string string := {[ "DATA_EXPORT_FORMATS" := "csv,, gpx," ]} in
  table_type DATA_EXPORT_FORMATS = TList
  ∧ body_value DATA_EXPORT_FORMATS 4300 env
    = Ok (StrList ["csv"; ""; " gpx"; ""])
  ∧ ∃ pieces,
      StrList ["csv"; ""; " gpx"; ""] = StrList pieces
      ∧ pieces ≠ []
      ∧ length pieces = 4%nat
      ∧ Forall (fun piece => occurrences "," piece = 0%nat) pieces
      ∧ join "," pieces = "csv,, gpx,".
Proof.
  intros env.
  assert (H1 : table_type DATA_EXPORT_FORMATS = TList) by reflexivity.
  assert (H2 : body_value DATA_EXPORT_FORMATS 4300 env
               = Ok (StrList ["csv"; ""; " gpx"; ""])) by reflexivity.
  split; [exact H1|]. split; [exact H2|].
  exact (X1_list_fields_keep_the_text DATA_EXPORT_FORMATS 4300 env _ H1 H2).
Defined.

(** ** Overriding one variable *)

Lemma getenv_insert_eq (env : gmap string string) key s default :
  getenv (<[key := s]> env) key default = s.
Proof. unfold getenv. now rewrite lookup_insert_eq. Qed.

Lemma getenv_insert_ne (env : gmap string string) key key' s default :
  key ≠ key' -> getenv (<[key := s]> env) key' default = getenv env key' default.
Proof. intros H. unfold getenv. now rewrite lookup_insert_ne. Qed.

(** Brings every [getenv] over an environment with one variable
    overridden back to the override or to the environment below it. *)
Ltac simplify_getenv :=
  unfold env_flag, env_list;
  rewrite ?getenv_insert_eq;
  rewrite ?getenv_insert_ne by (intro; discriminate).

(** Splits on the conversions of the goal, the same on both sides. *)
Ltac same_conversions :=
  repeat match goal with
         | |- context [py_int ?l ?s] =>
             destruct (py_int l s); simpl; try reflexivity
         | |- context [py_float ?s] =>
             destruct (py_float s); simpl; try reflexivity
         end.

Lemma var_name_injective v v' : var_name v = var_name v' -> v = v'.
Proof. destruct v, v'; intros H; first [reflexivity | discriminate H]. Qed.

Lemma raised_fmap {A B} (f : A -> B) (r : result A) :
  raised (f <$> r) = raised r.
Proof. destruct r; reflexivity. Qed.









Lemma lower_length s : String.length (lower s) = String.length s.
Proof. induction s as [|c s IH]; [reflexivity|]. simpl. now rewrite IH. Qed.



(** X3.  A boolean field is true only for a text of exactly four
    characters: a value padded with blanks or ended by a newline turns the
    flag off, since nothing is stripped before the comparison. *)
Theorem X3_true_flag_has_four_characters
    (v : EnvVar) (limit : nat) (env : gmap string string) (s : string) :
  table_type v = TBoolean ->
  env !! var_name v = Some s ->
  body_value v limit env = Ok (Bool true) ->
  String.length s = 4%nat.
Proof.
  intros Hty Hset Hval. apply body_value_refines_table in Hval.
  rewrite Hty, (getenv_set _ _ _ _ Hset) in Hval. simpl in Hval.
  injection Hval as Hval. apply String.eqb_eq in Hval.
  rewrite <- lower_length, Hval. reflexivity.
Qed.

Lemma X3_true_flag_has_four_characters_witness :
  let env : gmap string string := {[ "DATA_CACHE_ENABLED" := "tRuE" ]} in
  table_type DATA_CACHE_ENABLED = TBoolean
  ∧ env !! var_name DATA_CACHE_ENABLED = Some "tRuE"
  ∧ body_value DATA_CACHE_ENABLED 4300 env = Ok (Bool true)
  ∧ String.length "tRuE" = 4%nat.
Proof.
  intros env.
  assert (H1 : table_type DATA_CACHE_ENABLED = TBoolean) by reflexivity.
  assert (H2 : env !! var_name DATA_CACHE_ENABLED = Some "tRuE")
    by reflexivity.
  assert (H3 : body_value DATA_CACHE_ENABLED 4300 env = Ok (Bool true))
    by reflexivity.
  split; [exact H1|]. split; [exact H2|]. split; [exact H3|].
  exact (X3_true_flag_has_four_characters DATA_CACHE_ENABLED 4300 env "tRuE"
           H1 H2 H3).
Defined.

Lemma GNSSConfig_raised_insert v limit env s :
  numeric (table_type v) = false ->
  raised (GNSSConfig.body limit (<[var_name v := s]> env))
  = raised (GNSSConfig.body limit env).
Proof.
  intros Hty. destruct v; try discriminate Hty;
    unfold var_name, GNSSConfig.body; simplify_getenv; same_conversions.
Qed.

Lemma WebConfig_raised_insert v limit env s :
  numeric (table_type v) = false ->
  raised (WebConfig.body limit (<[var_name v := s]> env))
  = raised (WebConfig.body limit env).
Proof.
  intros Hty. destruct v; try discriminate Hty;
    unfold var_name, WebConfig.body; simplify_getenv; same_conversions.
Qed.

Lemma LoggingConfig_raised_insert v limit env s :
  numeric (table_type v) = false ->
  raised (LoggingConfig.body limit (<[var_name v := s]> env))
  = raised (LoggingConfig.body limit env).
Proof.
  intros Hty. destruct v; try discriminate Hty;
    unfold var_name, LoggingConfig.body; simplify_getenv; same_conversions.
Qed.

Lemma DataConfig_raised_insert v limit env s :
  numeric (table_type v) = false ->
  raised (DataConfig.body limit (<[var_name v := s]> env))
  = raised (DataConfig.body limit env).
Proof.
  intros Hty. destruct v; try discriminate Hty;
    unfold var_name, DataConfig.body; simplify_getenv; same_conversions.
Qed.

(** X4.  Only the numeric variables can make a class body fail: giving
    any text whatever to a string, boolean or list variable changes
    neither whether any class body raises nor the exception it raises. *)
Theorem X4_only_numbers_can_fail
    (v v' : EnvVar) (limit : nat) (env : gmap string string) (s : string) :
  numeric (table_type v) = false ->
  raised (body_value v' limit (<[var_name v := s]> env))
  = raised (body_value v' limit env).
Proof.
  intros Hty. destruct v'; unfold body_value; rewrite !raised_fmap;
    first [ exact (GNSSConfig_raised_insert v limit env s Hty)
          | exact (WebConfig_raised_insert v limit env s Hty)
          | exact (LoggingConfig_raised_insert v limit env s Hty)
          | exact (DataConfig_raised_insert v limit env s Hty)
          | reflexivity ].
Qed.

Lemma X4_only_numbers_can_fail_witness :
  let env : gmap string string := {[ "WEB_PORT" := "http" ]} in
  numeric (table_type WEB_HOST) = false
  ∧ raised (body_value WEB_PORT 4300 env) = Some (ValueError_int "http")
  ∧ raised (body_value WEB_PORT 4300 (<[var_name WEB_HOST := ""]> env))
    = raised (body_value WEB_PORT 4300 env).
Proof.
  intros env.
  assert (H : numeric (table_type WEB_HOST) = false) by reflexivity.
  split; [exact H|]. split; [reflexivity|].
  exact (X4_only_numbers_can_fail WEB_HOST WEB_PORT 4300 env "" H).
Defined.

(** X5.  The fields are independent of each other's variables: whatever
    one variable is set to, the field of any other variable keeps its
    value, as long as its class body still runs to its end. *)
Theorem X5_fields_are_independent
    (v v' : EnvVar) (limit : nat) (env : gmap string string) (s : string)
    (val val' : Value) :
  v ≠ v' ->
  body_value v' limit env = Ok val ->
  body_value v' limit (<[var_name v := s]> env) = Ok val' ->
  val' = val.
Proof.
  intros Hne Hval Hval'.
  apply body_value_refines_table in Hval, Hval'.
  rewrite getenv_insert_ne in Hval'.
  - congruence.
  - intros Heq. apply Hne. now apply var_name_injective.
Qed.

Lemma X5_fields_are_independent_witness :
  let env : gmap string string := {[ "GNSS_PORT" := "/dev/ttyUSB0" ]} in
  GNSS_BAUDRATE ≠ GNSS_PORT
  ∧ body_value GNSS_PORT 4300 env = Ok (Str "/dev/ttyUSB0")
  ∧ body_value GNSS_PORT 4300 (<[var_name GNSS_BAUDRATE := "115200"]> env)
    = Ok (Str "/dev/ttyUSB0")
  ∧ Str "/dev/ttyUSB0" = Str "/dev/ttyUSB0".
Proof.
  intros env.
  assert (H1 : GNSS_BAUDRATE ≠ GNSS_PORT) by discriminate.
  assert (H2 : body_value GNSS_PORT 4300 env = Ok (Str "/dev/ttyUSB0"))
    by reflexivity.
  assert (H3 : body_value GNSS_PORT 4300
                 (<[var_name GNSS_BAUDRATE := "115200"]> env)
               = Ok (Str "/dev/ttyUSB0")) by reflexivity.
  split; [exact H1|]. split; [exact H2|]. split; [exact H3|].
  exact (X5_fields_are_independent GNSS_BAUDRATE GNSS_PORT 4300 env "115200"
           _ _ H1 H2 H3).
Defined.

(** ** Empty and blank values *)

(** X6.  A variable that is set to the empty text is not taken for unset:
    no default is used.  A string field is then empty, a boolean field
    false and a list field the one-element list of the empty text, and the
    class body of an integer or float variable does not run to its end. *)
Theorem X6_empty_value_is_not_the_default
    (v : EnvVar) (limit : nat) (env : gmap string string) (val : Value) :
  env !! var_name v = Some "" ->
  body_value v limit env = Ok val ->
  match table_type v with
  | TString | TUpperString => val = Str ""
  | TBoolean => val = Bool false
  | TList => val = StrList [""]
  | TInteger | TFloat => False
  end.
Proof.
  intros Hset Hval. apply body_value_refines_table in Hval.
  rewrite (getenv_set _ _ _ _ Hset) in Hval.
  destruct (table_type v); simpl in Hval;
    first [ injection Hval as <-; reflexivity | discriminate Hval ].
Qed.

Lemma X6_empty_value_is_not_the_default_witness :
  let env : gmap string string := {[ "WEB_CORS_ORIGINS" := "" ]} in
  env !! var_name WEB_CORS_ORIGINS = Some ""
  ∧ body_value WEB_CORS_ORIGINS 4300 env = Ok (StrList [""])
  ∧ StrList [""] = StrList [""].
Proof.
  intros env.
  assert (H1 : env !! var_name WEB_CORS_ORIGINS = Some "") by reflexivity.
  assert (H2 : body_value WEB_CORS_ORIGINS 4300 env = Ok (StrList [""]))
    by reflexivity.
  split; [exact H1|]. split; [exact H2|].
  exact (X6_empty_value_is_not_the_default WEB_CORS_ORIGINS 4300 env _ H1 H2).
Defined.

Lemma drop_spaces_blank cs :
  forallb is_space cs = true -> drop_spaces cs = [].
Proof.
  induction cs as [|c cs IH]; [reflexivity|].
  simpl. destruct (is_space c); [exact IH | discriminate].
Qed.

Lemma py_int_blank limit s :
  forallb is_space (list_ascii_of_string s) = true ->
  py_int limit s = Raise (ValueError_int s).
Proof.
  intros H. unfold py_int. now rewrite (drop_spaces_blank _ H).
Qed.

Lemma py_float_blank s :
  forallb is_space (list_ascii_of_string s) = true ->
  py_float s = Raise (ValueError_float s).
Proof.
  intros H. unfold py_float. now rewrite (drop_spaces_blank _ H).
Qed.

(** X7.  An integer or float variable set to nothing but blanks (spaces,
    tabs, newlines, or no character at all) stops the class body that
    reads it with a conversion error: neither zero nor the default stands
    in for the missing number. *)
Theorem X7_blank_number_fails
    (v : EnvVar) (limit : nat) (env : gmap string string) (s : string) :
  numeric (table_type v) = true ->
  env !! var_name v = Some s ->
  forallb is_space (list_ascii_of_string s) = true ->
  ∃ e, body_value v limit env = Raise e ∧ conversion_error e = true.
Proof.
  intros Hty Hset Hblank.
  destruct (body_value_fails v limit env) as [e He].
  - rewrite (getenv_set _ _ _ _ Hset).
    destruct (table_type v); try discriminate Hty; simpl.
    + now rewrite (py_int_blank _ _ Hblank).
    + now rewrite (py_float_blank _ Hblank).
  - exists e. split; [exact He | exact (body_value_raises _ _ _ _ He)].
Qed.

Lemma X7_blank_number_fails_witness :
  let env : gmap string string := {[ "GNSS_TIMEOUT" := "  " ]} in
  numeric (table_type GNSS_TIMEOUT) = true
  ∧ env !! var_name GNSS_TIMEOUT = Some "  "
  ∧ forallb is_space (list_ascii_of_string "  ") = true
  ∧ ∃ e, body_value GNSS_TIMEOUT 4300 env = Raise e
         ∧ conversion_error e = true.
Proof.
  intros env.
  assert (H1 : numeric (table_type GNSS_TIMEOUT) = true) by reflexivity.
  assert (H2 : env !! var_name GNSS_TIMEOUT = Some "  ") by reflexivity.
  assert (H3 : forallb is_space (list_ascii_of_string "  ") = true)
    by reflexivity.
  split; [exact H1|]. split; [exact H2|]. split; [exact H3|].
  exact (X7_blank_number_fails GNSS_TIMEOUT 4300 env "  " H1 H2 H3).
Defined.

(** ** Integers *)

Lemma digit_facts c :
  is_digit c = true ->
  is_space c = false ∧ Ascii.eqb c "_" = false ∧ 0 ≤ digit_value c ≤ 9.
Proof.
  destruct c as [[] [] [] [] [] [] [] []]; intros H; try discriminate H;
    vm_compute; repeat split; congruence.
Qed.

Lemma take_sign_digit c cs :
  is_digit c = true -> take_sign (c :: cs) = (false, c :: cs).
Proof.
  destruct c as [[] [] [] [] [] [] [] []]; intros H; try discriminate H;
    reflexivity.
Qed.

Lemma take_sign_negative cs body :
  take_sign cs = (true, body) -> cs = "-"%char :: body.
Proof.
  destruct cs as [|c cs]; [discriminate|].
  destruct c as [[] [] [] [] [] [] [] []]; simpl; intros H;
    first [discriminate H | injection H as <-; reflexivity].
Qed.

Lemma scan_digits_of_digits cs acc digits :
  forallb is_digit cs = true ->
  scan_digits cs acc digits false
  = Some (fold_left (fun a c => 10 * a + digit_value c) cs acc,
          (digits + length cs)%nat, []).
Proof.
  revert acc digits. induction cs as [|c cs IH]; intros acc digits H.
  - simpl. now rewrite Nat.add_0_r.
  - simpl in H. apply andb_prop in H as [Hc Hcs].
    destruct (digit_facts c Hc) as (_ & Hus & _).
    simpl. rewrite Hus, Hc, (IH _ _ Hcs).
    now rewrite Nat.add_succ_r.
Qed.

Lemma scan_digits_nonnegative cs acc digits prev_us value digits' rest :
  scan_digits cs acc digits prev_us = Some (value, digits', rest) ->
  0 ≤ acc -> 0 ≤ value.
Proof.
  revert acc digits prev_us.
  induction cs as [|c cs IH]; intros acc digits prev_us H Hacc.
  - simpl in H. destruct prev_us; [discriminate|]. now injection H as <- _ _.
  - simpl in H. destruct (Ascii.eqb c "_").
    + destruct prev_us; [discriminate|]. exact (IH _ _ _ H Hacc).
    + destruct (is_digit c) eqn:Hc.
      * apply (IH _ _ _ H). destruct (digit_facts c Hc) as (_ & _ & Hd). lia.
      * destruct prev_us; [discriminate|]. now injection H as <- _ _.
Qed.

Lemma digits_value_nonnegative ds :
  forallb is_digit ds = true -> 0 ≤ digits_value ds.
Proof.
  intros H. unfold digits_value.
  pose proof (scan_digits_of_digits ds 0 0 H) as Hscan.
  exact (scan_digits_nonnegative _ _ _ _ _ _ _ Hscan (Z.le_refl 0)).
Qed.

Lemma over_digit_limit_short limit digits :
  (digits ≤ digits_threshold)%nat -> over_digit_limit limit digits = false.
Proof.
  intros H. unfold over_digit_limit.
  destruct (Nat.ltb_spec digits_threshold digits); [lia | reflexivity].
Qed.

(** [int] on a text of one to 640 digits. *)
Lemma py_int_of_digits (limit : nat) (s : string) :
  s ≠ "" ->
  forallb is_digit (list_ascii_of_string s) = true ->
  (String.length s ≤ 640)%nat ->
  py_int limit s = Ok (digits_value (list_ascii_of_string s))
  ∧ 0 ≤ digits_value (list_ascii_of_string s).
Proof.
  intros Hne Hdigits Hlen.
  split; [|exact (digits_value_nonnegative _ Hdigits)].
  unfold py_int.
  destruct s as [|c s]; [congruence|]. clear Hne.
  change (list_ascii_of_string (String c s))
    with (c :: list_ascii_of_string s) in *.
  set (cs := list_ascii_of_string s) in *.
  assert (Hc : is_digit c = true) by (simpl in Hdigits; now destruct (is_digit c)).
  destruct (digit_facts c Hc) as (Hsp & Hus & _).
  assert (Hdrop : drop_spaces (c :: cs) = c :: cs) by (simpl; now rewrite Hsp).
  rewrite Hdrop, (take_sign_digit c cs Hc).
  rewrite (scan_digits_of_digits (c :: cs) 0 0 Hdigits).
  assert (Hcount : length (c :: cs) = String.length (String c s)).
  { unfold cs. simpl. f_equal. clear. induction s; simpl; congruence. }
  rewrite over_digit_limit_short by (simpl in *; unfold digits_threshold; lia).
  destruct c as [[] [] [] [] [] [] [] []]; try discriminate Hus; reflexivity.
Qed.

(** X8.  An integer variable set to one to 640 decimal digits and nothing
    else never fails to convert, whatever the interpreter's digit limit;
    when the class body runs to its end the field is the number read in
    base ten, leading zeros included, and it is not negative. *)
Theorem X8_digits_are_read_in_base_ten
    (v : EnvVar) (limit : nat) (env : gmap string string) (s : string) :
  table_type v = TInteger ->
  env !! var_name v = Some s ->
  s ≠ "" ->
  forallb is_digit (list_ascii_of_string s) = true ->
  (String.length s ≤ 640)%nat ->
  conversion_failure limit env v = None
  ∧ 0 ≤ digits_value (list_ascii_of_string s)
  ∧ ∀ val, body_value v limit env = Ok val ->
           val = Int (digits_value (list_ascii_of_string s)).
Proof.
  intros Hty Hset Hne Hdigits Hlen.
  destruct (py_int_of_digits limit s Hne Hdigits Hlen) as [Hint Hpos].
  assert (Hcoerce :
    table_coerce limit (table_type v)
      (getenv env (var_name v) (table_default v))
    = Ok (Int (digits_value (list_ascii_of_string s)))).
  { rewrite Hty, (getenv_set _ _ _ _ Hset). simpl. now rewrite Hint. }
  split; [unfold conversion_failure; now rewrite Hcoerce|].
  split; [exact Hpos|].
  intros val Hval. apply body_value_refines_table in Hval. congruence.
Qed.

Lemma X8_digits_are_read_in_base_ten_witness :
  let env : gmap string string := {[ "GNSS_BAUDRATE" := "0115200" ]} in
  table_type GNSS_BAUDRATE = TInteger
  ∧ env !! var_name GNSS_BAUDRATE = Some "0115200"
  ∧ "0115200" ≠ ""
  ∧ forallb is_digit (list_ascii_of_string "0115200") = true
  ∧ (String.length "0115200" ≤ 640)%nat
  ∧ body_value GNSS_BAUDRATE 0 env = Ok (Int 115200)
  ∧ conversion_failure 0 env GNSS_BAUDRATE = None
  ∧ 0 ≤ 115200
  ∧ ∀ val, body_value GNSS_BAUDRATE 0 env = Ok val -> val = Int 115200.
Proof.
  intros env.
  assert (H0 : table_type GNSS_BAUDRATE = TInteger) by reflexivity.
  assert (H1 : env !! var_name GNSS_BAUDRATE = Some "0115200") by reflexivity.
  assert (H2 : "0115200" ≠ "") by discriminate.
  assert (H3 : forallb is_digit (list_ascii_of_string "0115200") = true)
    by reflexivity.
  assert (H4 : (String.length "0115200" ≤ 640)%nat) by (simpl; lia).
  split; [exact H0|]. split; [exact H1|]. split; [exact H2|].
  split; [exact H3|]. split; [exact H4|]. split; [reflexivity|].
  exact (X8_digits_are_read_in_base_ten GNSS_BAUDRATE 0 env "0115200"
           H0 H1 H2 H3 H4).
Defined.

Lemma drop_spaces_head cs c rest :
  drop_spaces cs = c :: rest -> In c cs.
Proof.
  induction cs as [|c' cs IH]; [discriminate|].
  simpl. destruct (is_space c').
  - intros H. right. exact (IH H).
  - intros [= -> _]. now left.
Qed.

Lemma occurrences_of_member c s :
  In c (list_ascii_of_string s) -> (0 < occurrences c s)%nat.
Proof.
  induction s as [|c' s IH]; [intros []|].
  simpl. intros [->|H].
  - rewrite Ascii.eqb_refl. lia.
  - destruct (Ascii.eqb c' c); [lia | exact (IH H)].
Qed.

(** [int] gives a negative number only for a text with a minus sign. *)
Lemma py_int_negative_has_minus (limit : nat) (s : string) (z : Z) :
  py_int limit s = Ok z ->
  z < 0 ->
  (0 < occurrences "-" s)%nat.
Proof.
  unfold py_int. intros H Hneg.
  destruct (take_sign _) as [negative body] eqn:Hsign.
  assert (Hcore :
    match scan_digits body 0 0 false with
    | None => Raise (ValueError_int s)
    | Some (value, digits, rest) =>
        if over_digit_limit limit digits
        then Raise (ValueError_int_digits digits)
        else if (digits =? 0)%nat then Raise (ValueError_int s)
             else match drop_spaces rest with
                  | [] => Ok (if negative then - value else value)
                  | _ :: _ => Raise (ValueError_int s)
                  end
    end = Ok z).
  { destruct body as [|c body]; [exact H|].
    destruct c as [[] [] [] [] [] [] [] []]; first [exact H | discriminate H]. }
  clear H.
  destruct (scan_digits body 0 0 false) as [[[value digits] rest]|] eqn:Hscan;
    [|discriminate].
  destruct (over_digit_limit limit digits); [discriminate|].
  destruct (digits =? 0)%nat; [discriminate|].
  destruct (drop_spaces rest); [|discriminate].
  injection Hcore as <-.
  pose proof (scan_digits_nonnegative _ _ _ _ _ _ _ Hscan (Z.le_refl 0)).
  destruct negative; [|lia].
  apply take_sign_negative in Hsign.
  apply occurrences_of_member. exact (drop_spaces_head _ _ _ Hsign).
Qed.

(** X9.  An integer field is negative only when its variable is set, to
    a text with a minus sign in it: no default is negative, and a port,
    rate, size or count written without a minus sign never becomes so. *)
Theorem X9_negative_needs_a_minus_sign
    (v : EnvVar) (limit : nat) (env : gmap string string) (z : Z) :
  body_value v limit env = Ok (Int z) ->
  z < 0 ->
  ∃ s, env !! var_name v = Some s ∧ (0 < occurrences "-" s)%nat.
Proof.
  intros Hval Hneg. apply body_value_refines_table in Hval.
  assert (Hint : table_type v = TInteger
                 ∧ py_int limit (getenv env (var_name v) (table_default v))
                   = Ok z).
  { destruct (table_type v); simpl in Hval; try discriminate Hval.
    - destruct (py_int _ _); simpl in Hval;
        [split; congruence | discriminate Hval].
    - destruct (py_float _); simpl in Hval; discriminate Hval. }
  destruct Hint as [Hty Hint].
  pose proof (py_int_negative_has_minus _ _ _ Hint Hneg) as Hminus.
  unfold getenv in Hminus.
  destruct (env !! var_name v) as [s|]; [eauto|].
  exfalso. destruct v; try discriminate Hty; vm_compute in Hminus; lia.
Qed.

Lemma X9_negative_needs_a_minus_sign_witness :
  let env : gmap string string := {[ "WEB_PORT" := " -1" ]} in
  body_value WEB_PORT 4300 env = Ok (Int (-1))
  ∧ -1 < 0
  ∧ ∃ s, env !! var_name WEB_PORT = Some s ∧ (0 < occurrences "-" s)%nat.
Proof.
  intros env.
  assert (H1 : body_value WEB_PORT 4300 env = Ok (Int (-1))) by reflexivity.
  assert (H2 : -1 < 0) by reflexivity.
  split; [exact H1|]. split; [exact H2|].
  exact (X9_negative_needs_a_minus_sign WEB_PORT 4300 env (-1) H1 H2).
Defined.

(** ** What the import reports *)

Lemma load_settings_first_failure limit env :
  load_settings limit env
  = Raise (match first_failure limit env import_conversions with
           | Some e => e
           | None => ValueError_mutable_default Clist "cors_origins"
           end).
Proof.
  rewrite load_settings_outcome.
  unfold GNSSConfig.body, WebConfig.body, first_failure, import_conversions,
    conversion_failure, table_coerce, table_type, table_default, var_name.
  repeat match goal with
         | |- context [py_int ?l ?s] =>
             destruct (py_int l s); simpl; try reflexivity
         | |- context [py_float ?s] =>
             destruct (py_float s); simpl; try reflexivity
         end.
Qed.

(** X10.  The exception the import ends with is that of the first
    conversion to fail in the order baud rate, timeout, measurement rate,
    navigation rate, web port, session timeout; when all six convert it
    is the refusal of the list default of [cors_origins].  Later errors
    are never reported together with an earlier one. *)
Theorem X10_import_reports_the_first_failure
    (limit : nat) (env : gmap string string) :
  load_settings limit env
  = Raise (match first_failure limit env import_conversions with
           | Some e => e
           | None => ValueError_mutable_default Clist "cors_origins"
           end).
Proof. apply load_settings_first_failure. Qed.

Lemma first_failure_agree limit env1 env2 vars :
  (∀ v, v ∈ vars -> env1 !! var_name v = env2 !! var_name v) ->
  first_failure limit env1 vars = first_failure limit env2 vars.
Proof.
  induction vars as [|v vars IH]; intros H; [reflexivity|].
  simpl. unfold conversion_failure, getenv.
  rewrite (H v) by constructor.
  rewrite IH; [reflexivity|].
  intros v' Hv'. apply H. now constructor.
Qed.

(** X11.  What the import does depends on six variables only, the numeric
    ones of the receiver and of the web server: two environments that
    agree on these end the import alike, whatever they hold for the map,
    logging and data variables or for any string, boolean or list. *)
Theorem X11_import_depends_on_six_variables
    (limit : nat) (env1 env2 : gmap string string) :
  (∀ v, v ∈ import_conversions ->
        env1 !! var_name v = env2 !! var_name v) ->
  load_settings limit env1 = load_settings limit env2.
Proof.
  intros H. rewrite !load_settings_first_failure.
  now rewrite (first_failure_agree limit env1 env2 _ H).
Qed.

Lemma X11_import_depends_on_six_variables_witness :
  let env1 : gmap string string :=
    {[ "WEB_PORT" := "80 80" ]} in
  let env2 : gmap string string :=
    <[ "LOG_BACKUP_COUNT" := "many" ]> (<[ "GNSS_PORT" := "COM3" ]> env1) in
  (∀ v, v ∈ import_conversions ->
        env1 !! var_name v = env2 !! var_name v)
  ∧ load_settings 4300 env1 = Raise (ValueError_int "80 80")
  ∧ load_settings 4300 env1 = load_settings 4300 env2.
Proof.
  intros env1 env2.
  assert (H : ∀ v, v ∈ import_conversions ->
                   env1 !! var_name v = env2 !! var_name v).
  { intros v Hv. unfold import_conversions in Hv. set_unfold in Hv.
    destruct Hv as [->|[->|[->|[->|[->|[->|[]]]]]]]; reflexivity. }
  split; [exact H|]. split; [reflexivity|].
  exact (X11_import_depends_on_six_variables 4300 env1 env2 H).
Defined.

(** ** What setup_logging does to the process *)

Lemma logging_level_values name level :
  logging_level name = Ok level -> level ∈ level_values.
Proof.
  unfold logging_level, level_values.
  repeat match goal with
         | |- context [if ?b then _ else _] => destruct b
         end;
    intros [= <-]; set_solver.
Qed.

Section ProcessProperties.

Context {FS : Type} (makedirs open_append : FS -> string -> result FS).

Lemma setup_logging_ok (w w' : World FS) (logger : Logger) :
  setup_logging FS makedirs open_append w = (w', Ok logger) ->
  let cfg := logging_config (settings w) in
  root_logger w' = logger
  ∧ logging_level (LoggingConfig.level cfg) = Ok (logger_level logger)
  ∧ handlers logger = (handlers (root_logger w) ++ added_handlers cfg)%list
  ∧ (if LoggingConfig.file_enabled cfg
     then handlers_imported w = true
          ∧ ∃ fs, makedirs (filesystem w)
                    (dirname (LoggingConfig.file_path cfg)) = Ok fs
                  ∧ open_append fs (LoggingConfig.file_path cfg)
                    = Ok (filesystem w')
     else filesystem w' = filesystem w).
Proof.
  unfold setup_logging, added_handlers, console_handler, file_handler.
  destruct (logging_level _) as [level|]; [|intros [= _ ?]; discriminate].
  destruct (LoggingConfig.file_enabled _).
  - simpl. destruct (makedirs _ _) as [fs|] eqn:Hmk; [|intros [= _ ?]; discriminate].
    simpl. destruct (handlers_imported w); [|intros [= _ ?]; discriminate].
    destruct (open_append _ _) as [fs'|] eqn:Hop; [|intros [= _ ?]; discriminate].
    intros [= <- <-]. simpl. rewrite <- app_assoc.
    repeat split; eauto.
  - intros [= <- <-]. simpl. repeat split.
Qed.

Lemma setup_logging_step (w : World FS) :
  handlers (root_logger w)
    `prefix_of` handlers (root_logger (setup_logging FS makedirs open_append w).1)
  ∧ handlers_imported (setup_logging FS makedirs open_append w).1
    = handlers_imported w.
Proof.
  unfold setup_logging.
  destruct (logging_level _); [|split; reflexivity].
  destruct (LoggingConfig.file_enabled _);
    [|split; [eexists|]; reflexivity].
  simpl. destruct (makedirs _ _); [|split; [eexists|]; reflexivity].
  simpl. destruct (handlers_imported w) eqn:Hi;
    [|split; [eexists; reflexivity | exact Hi]].
  destruct (open_append _ _); simpl.
  - split; [|exact Hi]. eexists. rewrite <- app_assoc. reflexivity.
  - split; [eexists; reflexivity | exact Hi].
Qed.

End ProcessProperties.

(** X12.  A call of [setup_logging] that returns hands out the root
    logger as it leaves it: its level is the numeric value of the
    configured level name, one of 0, 10, 20, 30, 40 and 50; the handlers
    that were installed before are all kept, followed by a new console
    handler and, with file logging on, a new rotating file handler.  With
    file logging on, [logging.handlers] had been imported, and the
    directory part of the log path was made before the file was opened;
    with file logging off the file system is untouched. *)
Theorem X12_setup_logging_on_success
    {FS} (makedirs open_append : FS -> string -> result FS)
    (w w' : World FS) (logger : Logger) :
  setup_logging FS makedirs open_append w = (w', Ok logger) ->
  root_logger w' = logger
  ∧ logging_level (LoggingConfig.level (logging_config (settings w)))
    = Ok (logger_level logger)
  ∧ logger_level logger ∈ level_values
  ∧ handlers logger
    = (handlers (root_logger w)
       ++ added_handlers (logging_config (settings w)))%list
  ∧ (if LoggingConfig.file_enabled (logging_config (settings w))
     then handlers_imported w = true
          ∧ ∃ fs, makedirs (filesystem w)
                    (dirname (LoggingConfig.file_path
                                (logging_config (settings w)))) = Ok fs
                  ∧ open_append fs (LoggingConfig.file_path
                                      (logging_config (settings w)))
                    = Ok (filesystem w')
     else filesystem w' = filesystem w).
Proof.
  intros H.
  destruct (setup_logging_ok makedirs open_append w w' logger H)
    as (Hroot & Hlevel & Hhandlers & Hfs).
  repeat split; try assumption.
  exact (logging_level_values _ _ Hlevel).
Qed.

Lemma X12_setup_logging_on_success_witness :
  let w' := (setup_logging _ sample_makedirs sample_open_append
               sample_world).1 in
  setup_logging _ sample_makedirs sample_open_append sample_world
  = (w', Ok (root_logger w'))
  ∧ logger_level (root_logger w') = 10
  ∧ length (handlers (root_logger w')) = 2%nat
  ∧ filesystem w' = ["/var/log/gnss.log"; "/var/log"].
Proof.
  intros w'.
  assert (H : setup_logging _ sample_makedirs sample_open_append sample_world
              = (w', Ok (root_logger w'))) by reflexivity.
  split; [exact H|].
  destruct (X12_setup_logging_on_success _ _ _ _ _ H)
    as (_ & _ & _ & Hhandlers & _).
  split; [reflexivity|].
  split; [rewrite Hhandlers; reflexivity | reflexivity].
Defined.

(** X13.  A call of [setup_logging] that raises has either changed
    nothing at all, when the configured level name is no level, or has
    already set the level and installed the console handler, which stay:
    a failure of the file part leaves the root logger half configured. *)
Theorem X13_setup_logging_on_failure
    {FS} (makedirs open_append : FS -> string -> result FS)
    (w w' : World FS) (e : PyExn) :
  setup_logging FS makedirs open_append w = (w', Raise e) ->
  (logging_level (LoggingConfig.level (logging_config (settings w)))
   = Raise e ∧ w' = w)
  ∨ (∃ level,
       logging_level (LoggingConfig.level (logging_config (settings w)))
       = Ok level
       ∧ LoggingConfig.file_enabled (logging_config (settings w)) = true
       ∧ root_logger w'
         = mkLogger level
             (handlers (root_logger w)
              ++ [console_handler (logging_config (settings w))])%list).
Proof.
  unfold setup_logging, console_handler.
  destruct (logging_level _) as [level|e0];
    [|intros [= <- <-]; left; split; reflexivity].
  destruct (LoggingConfig.file_enabled _); [|discriminate].
  intros H. right. exists level. split; [reflexivity|]. split; [reflexivity|].
  simpl in H. destruct (makedirs _ _); [|now injection H as <- _].
  simpl in H. destruct (handlers_imported w); [|now injection H as <- _].
  destruct (open_append _ _); [discriminate | now injection H as <- _].
Qed.

Lemma X13_setup_logging_on_failure_witness :
  let w := sample_world_with (sample_logging true "/var/log/gnss.log") false in
  let w' := (setup_logging _ sample_makedirs sample_open_append w).1 in
  setup_logging _ sample_makedirs sample_open_append w
  = (w', Raise (AttributeError "logging" "handlers"))
  ∧ w' ≠ w
  ∧ ∃ level,
      logging_level "INFO" = Ok level
      ∧ root_logger w'
        = mkLogger level
            [console_handler (sample_logging true "/var/log/gnss.log")].
Proof.
  intros w w'.
  assert (H : setup_logging _ sample_makedirs sample_open_append w
              = (w', Raise (AttributeError "logging" "handlers")))
    by reflexivity.
  split; [exact H|]. split; [discriminate|].
  destruct (X13_setup_logging_on_failure _ _ _ _ _ H)
    as [[Hlevel _]|(level & Hlevel & _ & Hroot)]; [discriminate Hlevel|].
  exists level. split; [exact Hlevel | exact Hroot].
Defined.

(** X14.  [setup_logging] is not idempotent: a second successful call
    installs the same handlers once more, so that every record is then
    written twice to the console and to the log file. *)
Theorem X14_setup_logging_twice_doubles_the_handlers
    {FS} (makedirs open_append : FS -> string -> result FS)
    (w w1 w2 : World FS) (logger1 logger2 : Logger) :
  setup_logging FS makedirs open_append w = (w1, Ok logger1) ->
  setup_logging FS makedirs open_append w1 = (w2, Ok logger2) ->
  handlers logger2
  = (handlers (root_logger w)
     ++ added_handlers (logging_config (settings w))
     ++ added_handlers (logging_config (settings w)))%list.
Proof.
  intros H1 H2.
  destruct (setup_logging_ok _ _ _ _ _ H1) as (Hroot1 & _ & Hh1 & _).
  destruct (setup_logging_ok _ _ _ _ _ H2) as (_ & _ & Hh2 & _).
  destruct (setup_logging_frame makedirs open_append w) as [Hs _].
  rewrite H1 in Hs. simpl in Hs.
  rewrite Hh2, Hs, Hroot1, Hh1, <- app_assoc. reflexivity.
Qed.

Lemma X14_setup_logging_twice_doubles_the_handlers_witness :
  let w1 := (setup_logging _ sample_makedirs sample_open_append
               sample_world).1 in
  let w2 := (setup_logging _ sample_makedirs sample_open_append w1).1 in
  setup_logging _ sample_makedirs sample_open_append sample_world
  = (w1, Ok (root_logger w1))
  ∧ setup_logging _ sample_makedirs sample_open_append w1
    = (w2, Ok (root_logger w2))
  ∧ length (handlers (root_logger w2)) = 4%nat.
Proof.
  intros w1 w2.
  assert (H1 : setup_logging _ sample_makedirs sample_open_append sample_world
               = (w1, Ok (root_logger w1))) by reflexivity.
  assert (H2 : setup_logging _ sample_makedirs sample_open_append w1
               = (w2, Ok (root_logger w2))) by reflexivity.
  split; [exact H1|]. split; [exact H2|].
  rewrite (X14_setup_logging_twice_doubles_the_handlers _ _ _ _ _ _ _ H1 H2).
  reflexivity.
Defined.

(** X15.  The settings module imports [logging] but never
    [logging.handlers].  In a process where nobody else has imported it,
    [setup_logging] with file logging on never returns: once the level
    name is accepted and the directory is made, it raises AttributeError
    for [logging.handlers], with the directory and the console handler
    left behind and no file handler installed. *)
Theorem X15_file_logging_needs_the_handlers_module
    {FS} (makedirs open_append : FS -> string -> result FS) (w : World FS) :
  handlers_imported w = false ->
  LoggingConfig.file_enabled (logging_config (settings w)) = true ->
  (∃ e, (setup_logging FS makedirs open_append w).2 = Raise e)
  ∧ ∀ level fs,
      logging_level (LoggingConfig.level (logging_config (settings w)))
      = Ok level ->
      makedirs (filesystem w)
        (dirname (LoggingConfig.file_path (logging_config (settings w))))
      = Ok fs ->
      setup_logging FS makedirs open_append w
      = (with_filesystem FS
           (with_logger FS w
              (mkLogger level
                 (handlers (root_logger w)
                  ++ [console_handler (logging_config (settings w))])%list))
           fs,
         Raise (AttributeError "logging" "handlers")).
Proof.
  intros Himp Hfile. unfold setup_logging, console_handler.
  rewrite Hfile. split.
  - destruct (logging_level _); [|eauto].
    simpl. destruct (makedirs _ _); [|eauto].
    simpl. rewrite Himp. eauto.
  - intros level fs -> Hmk. simpl. rewrite Hmk. simpl. now rewrite Himp.
Qed.

Lemma X15_file_logging_needs_the_handlers_module_witness :
  let cfg := sample_logging true "/var/log/gnss.log" in
  let w := sample_world_with cfg false in
  handlers_imported w = false
  ∧ LoggingConfig.file_enabled (logging_config (settings w)) = true
  ∧ (∃ e, (setup_logging _ sample_makedirs sample_open_append w).2 = Raise e)
  ∧ filesystem (setup_logging _ sample_makedirs sample_open_append w).1
    = ["/var/log"].
Proof.
  intros cfg w.
  assert (H1 : handlers_imported w = false) by reflexivity.
  assert (H2 : LoggingConfig.file_enabled (logging_config (settings w)) = true)
    by reflexivity.
  split; [exact H1|]. split; [exact H2|].
  destruct (X15_file_logging_needs_the_handlers_module
              sample_makedirs sample_open_append w H1 H2) as [Hraise Hstate].
  split; [exact Hraise|].
  rewrite (Hstate 20 ["/var/log"] eq_refl eq_refl). reflexivity.
Defined.

(** X16.  With file logging off, [setup_logging] touches no file or
    directory, and the only way it can fail is a configured level name
    that is no level, in which case it has changed nothing. *)
Theorem X16_console_logging_stays_off_the_disk
    {FS} (makedirs open_append : FS -> string -> result FS) (w : World FS) :
  LoggingConfig.file_enabled (logging_config (settings w)) = false ->
  filesystem (setup_logging FS makedirs open_append w).1 = filesystem w
  ∧ ∀ e, (setup_logging FS makedirs open_append w).2 = Raise e ->
         logging_level (LoggingConfig.level (logging_config (settings w)))
         = Raise e
         ∧ (setup_logging FS makedirs open_append w).1 = w.
Proof.
  intros Hfile. unfold setup_logging. rewrite Hfile.
  destruct (logging_level _); simpl.
  - split; [reflexivity | discriminate].
  - split; [reflexivity|]. intros e' [= <-]. split; reflexivity.
Qed.

Lemma X16_console_logging_stays_off_the_disk_witness :
  let cfg := sample_logging false "/var/log/gnss.log" in
  let w := sample_world_with cfg false in
  LoggingConfig.file_enabled (logging_config (settings w)) = false
  ∧ length (handlers (root_logger
              (setup_logging _ sample_makedirs sample_open_append w).1))
    = 1%nat
  ∧ filesystem (setup_logging _ sample_makedirs sample_open_append w).1 = [].
Proof.
  intros cfg w.
  assert (H : LoggingConfig.file_enabled (logging_config (settings w)) = false)
    by reflexivity.
  split; [exact H|]. split; [reflexivity|].
  destruct (X16_console_logging_stays_off_the_disk
              sample_makedirs sample_open_append w H) as [Hfs _].
  rewrite Hfs. reflexivity.
Defined.

(** X17.  However often [setup_logging] runs, and whether its calls
    return or raise, no handler that is installed on the root logger is
    ever removed or moved: the handlers of before remain, in their order,
    at the front of the list.  Nor does running it import
    [logging.handlers]. *)
Theorem X17_handlers_only_accumulate
    {FS} (makedirs open_append : FS -> string -> result FS)
    (w w' : World FS) :
  rtc (step FS makedirs open_append) w w' ->
  handlers (root_logger w) `prefix_of` handlers (root_logger w')
  ∧ handlers_imported w' = handlers_imported w.
Proof.
  induction 1 as [w | w w1 w' Hstep _ [IHp IHi]]; [split; reflexivity|].
  destruct Hstep as [w].
  destruct (setup_logging_step makedirs open_append w) as [Hp Hi].
  split; [etrans; eassumption | congruence].
Qed.

Lemma X17_handlers_only_accumulate_witness :
  let w1 := (setup_logging _ sample_makedirs sample_open_append
               sample_world).1 in
  let w2 := (setup_logging _ sample_makedirs sample_open_append w1).1 in
  rtc (step _ sample_makedirs sample_open_append) sample_world w2
  ∧ handlers (root_logger sample_world) `prefix_of` handlers (root_logger w2)
  ∧ handlers_imported w2 = handlers_imported sample_world.
Proof.
  intros w1 w2.
  assert (H : rtc (step _ sample_makedirs sample_open_append) sample_world w2).
  { apply rtc_l with w1; [constructor|]. apply rtc_once. constructor. }
  split; [exact H|].
  exact (X17_handlers_only_accumulate _ _ _ _ H).
Defined.

(** ** The directory of the log file *)

Lemma list_ascii_of_string_app s1 s2 :
  list_ascii_of_string (s1 ++ s2)
  = (list_ascii_of_string s1 ++ list_ascii_of_string s2)%list.
Proof. induction s1 as [|c s1 IH]; [reflexivity|]. simpl. now rewrite IH. Qed.

Lemma no_slash_characters s :
  occurrences "/" s = 0%nat ->
  Forall (fun c => is_slash c = false) (list_ascii_of_string s).
Proof.
  induction s as [|c s IH]; [constructor|].
  simpl. unfold is_slash at 1.
  destruct (Ascii.eqb c "/") eqn:E; [discriminate|].
  intros H. constructor; [exact E | exact (IH H)].
Qed.

Lemma drop_to_slash_none cs :
  Forall (fun c => is_slash c = false) cs -> drop_to_slash cs = [].
Proof.
  induction 1 as [|c cs Hc _ IH]; [reflexivity|]. simpl. now rewrite Hc.
Qed.

Lemma drop_to_slash_first cs rest :
  Forall (fun c => is_slash c = false) cs ->
  drop_to_slash (cs ++ "/"%char :: rest) = "/"%char :: rest.
Proof.
  induction 1 as [|c cs Hc _ IH]; [reflexivity|]. simpl. now rewrite Hc.
Qed.

Lemma dirname_without_slash path :
  occurrences "/" path = 0%nat -> dirname path = "".
Proof.
  intros H. unfold dirname.
  rewrite drop_to_slash_none; [reflexivity|].
  apply List.Forall_rev. exact (no_slash_characters _ H).
Qed.

(** X18.  The directory that [setup_logging] asks the system to make is
    the one the log file is named in: for a directory that does not end
    in a slash and a file name without slashes, the directory part of
    directory/name is the directory, character for character. *)
Theorem X18_dirname_of_a_file_in_a_directory (dir name : string) :
  is_slash (List.last (list_ascii_of_string dir) "/"%char) = false ->
  occurrences "/" name = 0%nat ->
  dirname (dir ++ String "/" name) = dir.
Proof.
  intros Hlast Hname. unfold dirname.
  rewrite list_ascii_of_string_app. simpl.
  rewrite rev_app_distr. simpl. rewrite <- app_assoc. simpl.
  rewrite drop_to_slash_first
    by (apply List.Forall_rev; exact (no_slash_characters _ Hname)).
  destruct (rev (list_ascii_of_string dir)) as [|c r] eqn:Hrev.
  - apply (f_equal (@rev ascii)) in Hrev. rewrite rev_involutive in Hrev.
    rewrite Hrev in Hlast. discriminate Hlast.
  - assert (Hdir : list_ascii_of_string dir = (rev r ++ [c])%list).
    { apply (f_equal (@rev ascii)) in Hrev.
      now rewrite rev_involutive in Hrev. }
    rewrite Hdir, List.last_last in Hlast.
    simpl. rewrite Hlast. simpl.
    rewrite <- Hdir. apply string_of_list_ascii_of_string.
Qed.

Lemma X18_dirname_of_a_file_in_a_directory_witness :
  is_slash (List.last (list_ascii_of_string "/var/log") "/"%char) = false
  ∧ occurrences "/" "gnss.log" = 0%nat
  ∧ dirname "/var/log/gnss.log" = "/var/log".
Proof.
  assert (H1 : is_slash (List.last (list_ascii_of_string "/var/log") "/"%char)
               = false) by reflexivity.
  assert (H2 : occurrences "/" "gnss.log" = 0%nat) by reflexivity.
  split; [exact H1|]. split; [exact H2|].
  exact (X18_dirname_of_a_file_in_a_directory "/var/log" "gnss.log" H1 H2).
Defined.

(** X19.  A log path that names no directory, a bare file name, makes
    [setup_logging] ask for the empty path to be made.  On a system that
    refuses the empty path, as POSIX systems do, the call then raises
    that refusal once the level is set and the console handler is
    installed, and no log file is opened. *)
Theorem X19_bare_log_file_name_fails
    {FS} (makedirs open_append : FS -> string -> result FS)
    (w : World FS) (level : Z) (e : PyExn) :
  LoggingConfig.file_enabled (logging_config (settings w)) = true ->
  occurrences "/" (LoggingConfig.file_path (logging_config (settings w)))
  = 0%nat ->
  logging_level (LoggingConfig.level (logging_config (settings w)))
  = Ok level ->
  makedirs (filesystem w) "" = Raise e ->
  setup_logging FS makedirs open_append w
  = (with_logger FS w
       (mkLogger level
          (handlers (root_logger w)
           ++ [console_handler (logging_config (settings w))])%list),
     Raise e).
Proof.
  intros Hfile Hbare Hlevel Hmk. unfold setup_logging, console_handler.
  rewrite Hlevel, Hfile. simpl.
  rewrite (dirname_without_slash _ Hbare), Hmk. reflexivity.
Qed.

Lemma X19_bare_log_file_name_fails_witness :
  let cfg := sample_logging true "gnss_viewer.log" in
  let w := sample_world_with cfg true in
  LoggingConfig.file_enabled (logging_config (settings w)) = true
  ∧ occurrences "/" (LoggingConfig.file_path (logging_config (settings w)))
    = 0%nat
  ∧ logging_level (LoggingConfig.level (logging_config (settings w))) = Ok 20
  ∧ sample_makedirs (filesystem w) "" = Raise (OSError "")
  ∧ (setup_logging _ sample_makedirs sample_open_append w).2
    = Raise (OSError "").
Proof.
  intros cfg w.
  assert (H1 : LoggingConfig.file_enabled (logging_config (settings w)) = true)
    by reflexivity.
  assert (H2 : occurrences "/"
                 (LoggingConfig.file_path (logging_config (settings w)))
               = 0%nat) by reflexivity.
  assert (H3 : logging_level
                 (LoggingConfig.level (logging_config (settings w))) = Ok 20)
    by reflexivity.
  assert (H4 : sample_makedirs (filesystem w) "" = Raise (OSError ""))
    by reflexivity.
  split; [exact H1|]. split; [exact H2|]. split; [exact H3|].
  split; [exact H4|].
  rewrite (X19_bare_log_file_name_fails sample_makedirs sample_open_append
             w 20 (OSError "") H1 H2 H3 H4).
  reflexivity.
Defined.

(** ** Values and defaults, field by field *)

(** X20.  The environment always wins over the default: whenever a class
    body runs to its end, the field of each of the 31 variables holds the
    coercion of its type (text as it is, upper-cased text, integer, float,
    flag, comma-separated list) applied to the variable's value when the
    variable is set, and to the documented default only when it is not. *)
Theorem X20_fields_follow_the_environment
    (v : EnvVar) (limit : nat) (env : gmap string string) (val : Value) :
  body_value v limit env = Ok val ->
  table_coerce limit (table_type v)
    (match env !! var_name v with
     | Some s => s
     | None => table_default v
     end) = Ok val.
Proof. exact (body_value_refines_table v limit env val). Qed.

Lemma X20_fields_follow_the_environment_witness :
  let env : gmap string string :=
    {[ "LOG_LEVEL" := "warning" ]} in
  body_value LOG_LEVEL 4300 env = Ok (Str "WARNING")
  ∧ table_coerce 4300 (table_type LOG_LEVEL)
      (match env !! var_name LOG_LEVEL with
       | Some s => s
       | None => table_default LOG_LEVEL
       end) = Ok (Str "WARNING").
Proof.
  intros env.
  assert (H : body_value LOG_LEVEL 4300 env = Ok (Str "WARNING"))
    by reflexivity.
  split; [exact H|].
  exact (X20_fields_follow_the_environment LOG_LEVEL 4300 env _ H).
Defined.

(** X21.  The defaults of the numeric variables are valid numbers under
    every digit limit: in an environment that sets no integer or float
    variable, every class body runs to its end, whatever the string,
    boolean and list variables hold. *)
Theorem X21_defaults_always_convert
    (limit : nat) (env : gmap string string) :
  (∀ v, numeric (table_type v) = true -> env !! var_name v = None) ->
  ∀ v, ∃ val, body_value v limit env = Ok val.
Proof.
  intros H.
  assert (Hd : ∀ v, numeric (table_type v) = true ->
                    ∀ d, getenv env (var_name v) d = d)
    by (intros v Hv d; apply getenv_unset; auto).
  intros v.
  destruct v; unfold body_value, GNSSConfig.body, WebConfig.body,
    MapConfig.body, LoggingConfig.body, DataConfig.body;
    rewrite ?(Hd GNSS_BAUDRATE eq_refl), ?(Hd GNSS_TIMEOUT eq_refl),
      ?(Hd GNSS_UBX_RATE eq_refl), ?(Hd GNSS_NAV_RATE eq_refl),
      ?(Hd WEB_PORT eq_refl), ?(Hd WEB_SESSION_TIMEOUT eq_refl),
      ?(Hd LOG_MAX_FILE_SIZE eq_refl), ?(Hd LOG_BACKUP_COUNT eq_refl),
      ?(Hd DATA_MAX_HISTORY eq_refl), ?(Hd DATA_CACHE_TTL eq_refl);
    eexists; reflexivity.
Qed.

Lemma X21_defaults_always_convert_witness :
  let env : gmap string string :=
    {[ "WEB_DEBUG" := "maybe"; "DATA_EXPORT_FORMATS" := "" ]} in
  (∀ v, numeric (table_type v) = true -> env !! var_name v = None)
  ∧ ∀ v, ∃ val, body_value v 1 env = Ok val.
Proof.
  intros env.
  assert (H : ∀ v, numeric (table_type v) = true -> env !! var_name v = None)
    by (intros v Hv; destruct v; first [discriminate Hv | reflexivity]).
  split; [exact H|].
  exact (X21_defaults_always_convert 1 env H).
Defined.

(** ** A timeout in whole seconds *)








